(** * evaluate.py: evaluation loop, metric aggregation and script

    A shallow embedding of [src_def/evaluate.py].

    Numbers.  The script computes with numpy scalars and Python floats.
    The embedding uses exact rationals ([Qc], canonical fractions with
    Leibniz equality): rounding and overflow are not modelled.  A division
    whose divisor is zero has no rational value (numpy answers [inf] or
    [nan] there, plain Python raises); the model stops with
    [ZeroDivisionError] at such a division, so that "no division by zero"
    is the absence of that error.

    Dictionaries are finite maps with string keys ([gmap string _]); the
    order in which Python walks a dictionary only decides which of several
    possible errors surfaces first and is not tracked.

    Calls to [logging] are not modelled. *)

From Stdlib Require Import QArith Qcanon ZArith Ascii String.
From stdpp Require Import base option list strings gmap fin_maps numbers.

Local Open Scope Qc_scope.

(** ** Python runtime: exceptions and results *)

Module Py.

Inductive key : Set :=
  | key_str (s : string)
  | key_int (i : Z).

Inductive exn : Set :=
  | AssertionError (msg : string)
  | StopIteration
  | IndexError
  | KeyError (k : key)
  | ZeroDivisionError
  | RuntimeError (what : string).

Inductive result (A : Type) : Type :=
  | Return (a : A)
  | Raise (e : exn).
Global Arguments Return {A} a.
Global Arguments Raise {A} e.

Global Instance result_ret : MRet result := @Return.
Global Instance result_bind : MBind result := λ A B f m,
  match m with
  | Return a => f a
  | Raise e => Raise e
  end.
Global Instance result_fmap : FMap result := λ A B f m,
  match m with
  | Return a => Return (f a)
  | Raise e => Raise e
  end.

(** [d[k]] on a dictionary with string keys. *)
Definition getitem {V} (d : gmap string V) (k : string) : result V :=
  match d !! k with
  | Some v => Return v
  | None => Raise (KeyError (key_str k))
  end.

(** [del d[k]]. *)
Definition delitem {V} (d : gmap string V) (k : string)
  : result (gmap string V) :=
  match d !! k with
  | Some _ => Return (delete k d)
  | None => Raise (KeyError (key_str k))
  end.

(** [{k: g(k) for k in keys}]. *)
Definition dict_comprehension {V W} (g : string → result W)
    (keys : gmap string V) : result (gmap string W) :=
  list_to_map <$>
    mapM (λ kv : string * V, w ← g kv.1; mret (kv.1, w)) (map_to_list keys).

(** [a / b] on numbers. *)
Definition truediv (a b : Qc) : result Qc :=
  if decide (b = 0) then Raise ZeroDivisionError else Return (a / b).

(** [a // b] on integers. *)
Definition floordiv (a b : Z) : result Z :=
  if decide (b = 0%Z) then Raise ZeroDivisionError else Return (a `div` b)%Z.

(** [int(x)]: truncation towards zero. *)
Definition int (x : Qc) : Z := (Qnum x `quot` Zpos (Qden x))%Z.

(** The number [n] of a [len] or a [range] as a rational. *)
Definition of_nat (n : nat) : Qc := Q2Qc (inject_Z (Z.of_nat n)).

(** [sep.join(parts)]. *)
Definition str_join (sep : string) (parts : list string) : string :=
  String.concat sep parts.

(** [s.startswith('/')] and [s.endswith('/')]. *)
Definition startswith_sep (s : string) : bool :=
  match s with
  | String "/"%char _ => true
  | _ => false
  end.

Fixpoint endswith_sep (s : string) : bool :=
  match s with
  | EmptyString => false
  | String c EmptyString => bool_decide (c = "/"%char)
  | String _ rest => endswith_sep rest
  end.

(** [os.path.join(a, b)] of [posixpath]. *)
Definition os_path_join (a b : string) : string :=
  if startswith_sep b then b
  else if bool_decide (a = EmptyString) || endswith_sep a then a +:+ b
  else a +:+ "/" +:+ b.

End Py.
Import Py.

(** ** numpy reductions over a Python list of numbers *)

Module Np.

Definition sum (xs : list Qc) : Qc := foldr Qcplus 0 xs.

Definition mean (xs : list Qc) : result Qc :=
  truediv (sum xs) (of_nat (length xs)).

End Np.

(** ** utils.RunningAverage *)

Module Utils.

(** Modelled from the spec: [utils.RunningAverage] is not part of the
    sources at hand.  It is the accumulator whose result is the
    arithmetic mean of the values it was updated with: it keeps the
    running total and the number of updates, and calling it divides the
    one by the other. *)
Record RunningAverage := { steps : nat; total : Qc }.

Definition RunningAverage_init : RunningAverage :=
  {| steps := 0; total := 0 |}.

Definition update (val : Qc) (avg : RunningAverage) : RunningAverage :=
  {| steps := S (steps avg); total := total avg + val |}.

Definition call (avg : RunningAverage) : result Qc :=
  truediv (total avg) (of_nat (steps avg)).

End Utils.

(** ** The script's command line and its effects on the outside world *)

(** [args = parser.parse_args()]. *)
Record args := {
  data_dir : string;
  model_dir : string;
  restore_file : string
}.

Definition default_args : args :=
  {| data_dir := "data/small";
     model_dir := "experiments/base_model";
     restore_file := "best" |}.

(** What the script does to the file system, call by call. *)
Inductive io_event : Type :=
  | read_params (json_path : string)
  | set_logger (log_path : string)
  | load_dataset (dir : string)
  | load_checkpoint (checkpoint : string)
  | write_text (path : string) (content : string)
  | save_dict_to_json (d : gmap string Qc) (json_path : string).

Section Evaluate.

(** The entries of a batch other than ['sentences'] and ['slabels']. *)
Context {Features : Type}.

(** [data_batch]: the dictionary the data iterator yields. *)
Record batch := {
  sentences : list (list string);
  features : Features;
  slabels : list Qc
}.

(** The state the code changes: the generator behind [data_iterator]
    (the batches it has yet to yield) and the file system calls made. *)
Record world := {
  generator : list batch;
  effects : list io_event
}.

(** Computations that change the world and may raise. *)
Definition M (A : Type) : Type := world → result A * world.

Global Instance M_ret : MRet M := λ A a w, (Return a, w).
Global Instance M_bind : MBind M := λ A B f m w,
  match m w with
  | (Return a, w') => f a w'
  | (Raise e, w') => (Raise e, w')
  end.

Definition lift {A} (r : result A) : M A := λ w, (r, w).

Definition perform (ev : io_event) : M unit := λ w,
  (Return (), {| generator := generator w; effects := effects w ++ [ev] |}).

(** [next(data_iterator)]. *)
Definition next : M batch := λ w,
  match generator w with
  | [] => (Raise StopIteration, w)
  | b :: rest => (Return b, {| generator := rest; effects := effects w |})
  end.

(** [for _ in range(n): st = body(st)]. *)
Fixpoint for_range {S} (n : nat) (body : S → M S) (st : S) : M S :=
  match n with
  | O => mret st
  | S n' => st' ← body st; for_range n' body st'
  end.

(** The names [evaluate] reads from the script's global scope; they are
    bound only when the module runs as a script. *)
Record script_globals := {
  g_args : args;
  g_sid2tag : gmap Z string
}.

(** *** Tagged sentences (lines 60-67) *)

(** [output_batch > 0.5], one row. *)
Definition greater_half (row : list Qc) : list bool :=
  (λ v, bool_decide (Q2Qc (1 # 2) < v)) <$> row.

Definition int_of_bool (b : bool) : Z := if b then 1%Z else 0%Z.

Definition sid2tag_getitem (sid2tag : gmap Z string) (i : Z) : result string :=
  match sid2tag !! i with
  | Some t => Return t
  | None => Raise (KeyError (key_int i))
  end.

Definition tag_sentence (sid2tag : gmap Z string)
    (x : list string) (y : list bool) (z : Qc) : result string :=
  let z := int z in
  y0 ← match y with
       | [] => Raise IndexError
       | b :: _ => Return b
       end;
  let y := int_of_bool y0 in
  ty ← sid2tag_getitem sid2tag y;
  tz ← sid2tag_getitem sid2tag z;
  mret (str_join " " x +:+ "<" +:+ ty +:+ "/>" +:+ "<" +:+ tz +:+ "/>").

(** [zip(a, b, c)]. *)
Fixpoint zip3 {A B C} (a : list A) (b : list B) (c : list C)
  : list (A * B * C) :=
  match a, b, c with
  | x :: a', y :: b', z :: c' => (x, y, z) :: zip3 a' b' c'
  | _, _, _ => []
  end.

Definition tag_batch (sid2tag : gmap Z string) (data_batch : batch)
    (output_batch : list (list Qc)) : result (list string) :=
  mapM (λ '(x, y, z), tag_sentence sid2tag x y z)
       (zip3 (sentences data_batch)
             (greater_half <$> output_batch)
             (slabels data_batch)).

(** *** One pass of the loop (lines 42-70) *)

Record loop_state := {
  summ : list (gmap string Qc);
  tagged_sentences : list string;
  loss_avg : Utils.RunningAverage
}.

Definition loop_init : loop_state :=
  {| summ := []; tagged_sentences := [];
     loss_avg := Utils.RunningAverage_init |}.

Section Loop.

Variable main : option script_globals.
Variable model : batch → list (list Qc).
Variable loss_fn : list (list Qc) → list Qc → Qc.
Variable metrics : gmap string (list (list Qc) → list Qc → Qc).

Definition summary_of (data_batch : batch) : gmap string Qc :=
  let labels_batch := slabels data_batch in
  let output_batch := model data_batch in
  let loss := loss_fn output_batch labels_batch in
  let summary_batch :=
    (λ metric, metric output_batch labels_batch) <$> metrics in
  <["loss" := loss]> summary_batch.

Definition loss_of (data_batch : batch) : Qc :=
  loss_fn (model data_batch) (slabels data_batch).

Definition loop_body (st : loop_state) : M loop_state :=
  data_batch ← next;
  let summ' := summ st ++ [summary_of data_batch] in
  tagged' ← match main with
            | Some g =>
                lines ← lift (tag_batch (g_sid2tag g) data_batch
                                        (model data_batch));
                mret (tagged_sentences st ++ lines)
            | None => mret (tagged_sentences st)
            end;
  mret {| summ := summ'; tagged_sentences := tagged';
          loss_avg := Utils.update (loss_of data_batch) (loss_avg st) |}.

End Loop.

(** *** Aggregation of the batch summaries (lines 72-87) *)

(** [summ[0]]. *)
Definition first_summary (summ : list (gmap string Qc))
  : result (gmap string Qc) :=
  match summ with
  | [] => Raise IndexError
  | x :: _ => Return x
  end.

(** [[x[metric] for x in summ]]. *)
Definition column (metric : string) (summ : list (gmap string Qc))
  : result (list Qc) :=
  mapM (λ x, getitem x metric) summ.

(** Lines 78-82. *)
Definition f1_scores (tp fp fn : Qc) : result (Qc * Qc * Qc) :=
  if decide (tp ≠ 0) then
    p ← truediv tp (tp + fp);
    r ← truediv tp (tp + fn);
    f1 ← truediv (2 * (p * r)) (p + r);
    mret (p, r, f1)
  else mret (0, 0, 0).

(** [for x in xs: st = body(x, st)]. *)
Fixpoint for_each {A S} (xs : list A) (body : A → S → result S) (st : S)
  : result S :=
  match xs with
  | [] => mret st
  | x :: xs' => st' ← body x st; for_each xs' body st'
  end.

Definition aggregate (summ : list (gmap string Qc))
  : result (gmap string Qc) :=
  keys ← first_summary summ;
  metrics_mean ←
    dict_comprehension (λ metric, col ← column metric summ; Np.mean col) keys;
  keys ← first_summary summ;
  metrics_sum ←
    dict_comprehension (λ metric, Np.sum <$> column metric summ) keys;
  tp ← getitem metrics_sum "tp";
  fp ← getitem metrics_sum "fp";
  fn ← getitem metrics_sum "fn";
  '(p, r, f1) ← f1_scores tp fp fn;
  let metrics_mean := <["f1score" := f1]> metrics_mean in
  let metrics_mean := <["precision" := p]> metrics_mean in
  let metrics_mean := <["recall" := r]> metrics_mean in
  for_each ["tp"; "fp"; "fn"] (λ x d, delitem d x) metrics_mean.

(** *** evaluate (lines 19-98) *)

Definition newline : string := String "010"%char EmptyString.

(** [data_iterator] is the generator held in the world; [params] is not
    used by the body.  [main] is [Some] of the script's globals when
    [__name__ == '__main__'], and [None] when the module is imported. *)
Definition evaluate (main : option script_globals)
    (model : batch → list (list Qc))
    (loss_fn : list (list Qc) → list Qc → Qc)
    (metrics : gmap string (list (list Qc) → list Qc → Qc))
    (num_steps : Z) : M (gmap string Qc * Qc) :=
  st ← for_range (Z.to_nat num_steps)
                 (loop_body main model loss_fn metrics) loop_init;
  metrics_mean ← lift (aggregate (summ st));
  _ ← match main with
      | Some g =>
          let ofname := os_path_join (model_dir (g_args g))
                                     "output_tagged_sentences.txt" in
          perform (write_text ofname (str_join newline (tagged_sentences st)))
      | None => mret ()
      end;
  avg ← lift (Utils.call (loss_avg st));
  mret (metrics_mean, avg).

(** *** Notions used to state what a run computes *)

(** The batches a call with [num_steps] takes from the generator. *)
Definition batches_fetched (num_steps : Z) (w : world) : list batch :=
  take (Z.to_nat num_steps) (generator w).

(** The values of one metric function, batch by batch. *)
Definition metric_values (model : batch → list (list Qc))
    (metric : list (list Qc) → list Qc → Qc) (bs : list batch) : list Qc :=
  (λ b, metric (model b) (slabels b)) <$> bs.

(** [vs] lists, batch by batch, the value the summaries of [bs] hold
    under the key [k]. *)
Definition batch_values (model : batch → list (list Qc))
    (loss_fn : list (list Qc) → list Qc → Qc)
    (metrics : gmap string (list (list Qc) → list Qc → Qc))
    (k : string) (bs : list batch) (vs : list Qc) : Prop :=
  Forall2 (λ b v, summary_of model loss_fn metrics b !! k = Some v) bs vs.

(** The batch summaries hold counts under ['tp'], ['fp'] and ['fn']:
    numbers that are not negative. *)
Definition counts_nonnegative (summ : list (gmap string Qc)) : Prop :=
  ∀ x k v, x ∈ summ → k ∈ ["tp"; "fp"; "fn"] → x !! k = Some v → 0 ≤ v.

(** The lines the script's tagging adds for a list of batches. *)
Definition tag_batches (sid2tag : gmap Z string)
    (model : batch → list (list Qc)) (bs : list batch)
  : result (list string) :=
  @concat string <$> mapM (λ b, tag_batch sid2tag b (model b)) bs.

(** What the loop has added to the tagged lines of [st] to give those of
    [st'], having fetched [bs]. *)
Definition tagged_from (main : option script_globals)
    (model : batch → list (list Qc)) (bs : list batch)
    (st st' : loop_state) : Prop :=
  match main with
  | Some g =>
      ∃ lines, tag_batches (g_sid2tag g) model bs = Return lines ∧
               tagged_sentences st' = tagged_sentences st ++ lines
  | None => tagged_sentences st' = tagged_sentences st
  end.

(** *** The script (lines 101-155) *)

(** Hyperparameters: the fields of [params.json] the script reads, and
    the two attributes it sets. *)
Record Params := {
  model_type : string;
  batch_size : Z;
  cuda : bool;
  test_size : Z
}.

Definition set_cuda (c : bool) (p : Params) : Params :=
  {| model_type := model_type p; batch_size := batch_size p;
     cuda := c; test_size := test_size p |}.

Definition set_test_size (n : Z) (p : Params) : Params :=
  {| model_type := model_type p; batch_size := batch_size p;
     cuda := cuda p; test_size := n |}.

(** A loaded data split and a network, as far as the script looks
    into them. *)
Context {Dataset Net : Type}.

Record DataLoader := {
  sid2tag : gmap Z string;
  load_data : list string → string → result (gmap string Dataset);
  data_iterator : Dataset → Params → list batch
}.

(** What the script calls outside this file. *)
Record environment := {
  os_path_isfile : string → bool;
  utils_Params : string → result Params;
  torch_cuda_is_available : bool;
  DataLoader_init : string → Params → result DataLoader;
  dataset_size : Dataset → Z;
  net_BertDEF : Params → result Net;
  net_SBertDEF : Params → result Net;
  net_LuisNet : Params → result Net;
  net_forward : Net → batch → list (list Qc);
  net_loss_fn : list (list Qc) → list Qc → Qc;
  net_metrics : gmap string (list (list Qc) → list Qc → Qc);
  utils_load_checkpoint : string → Net → result Net
}.

Variable env : environment.

(** [assert cond, msg]. *)
Definition assert_ (cond : bool) (msg : string) : M unit :=
  if cond then mret () else lift (Raise (AssertionError msg)).

(** A call that touches the file system and may raise. *)
Definition external {A} (ev : io_event) (r : result A) : M A :=
  _ ← perform ev; lift r.

(** The iterator the script hands to [evaluate]. *)
Definition set_generator (it : list batch) : M unit := λ w,
  (Return (), {| generator := it; effects := effects w |}).

(** Lines 106-108. *)
Definition startup (a : args) : M string :=
  let json_path := os_path_join (model_dir a) "params.json" in
  _ ← assert_ (os_path_isfile env json_path)
              ("No json configuration file found at " +:+ json_path);
  mret json_path.

Definition script (a : args) : M unit :=
  json_path ← startup a;
  params ← external (read_params json_path) (utils_Params env json_path);
  let params := set_cuda (torch_cuda_is_available env) params in
  _ ← perform (set_logger (os_path_join (model_dir a) "evaluate.log"));
  data_loader ← external (load_dataset (data_dir a))
                         (DataLoader_init env (data_dir a) params);
  data ← lift (load_data data_loader ["test"] (data_dir a));
  test_data ← lift (getitem data "test");
  let params := set_test_size (dataset_size env test_data) params in
  _ ← set_generator (data_iterator data_loader test_data params);
  model ← lift (if bool_decide (model_type params = "bert")
                then net_BertDEF env params
                else if bool_decide (model_type params = "sbert")
                then net_SBertDEF env params
                else net_LuisNet env params);
  let checkpoint :=
    os_path_join (model_dir a) (restore_file a +:+ ".pth.tar") in
  model ← external (load_checkpoint checkpoint)
                   (utils_load_checkpoint env checkpoint model);
  num_steps ← lift (floordiv (test_size params + 1) (batch_size params));
  '(test_metrics, _) ←
    evaluate (Some {| g_args := a; g_sid2tag := sid2tag data_loader |})
             (net_forward env model) (net_loss_fn env) (net_metrics env)
             num_steps;
  let save_path :=
    os_path_join (model_dir a)
                 ("metrics_test_" +:+ restore_file a +:+ ".json") in
  perform (save_dict_to_json test_metrics save_path).

(** *** Notions used to state what the script does *)

(** What [os.path.join] puts between a directory and a file name. *)
Definition separator (dir : string) : string :=
  if bool_decide (dir = EmptyString) || endswith_sep dir
  then EmptyString else "/".

(** [path] names the file [name] in the directory [dir]. *)
Definition in_directory (dir name path : string) : Prop :=
  path = dir +:+ separator dir +:+ name.

Definition is_assertion {A} (r : result A) : Prop :=
  ∃ msg, r = Raise (AssertionError msg).

Definition never_asserts {A} (c : M A) : Prop :=
  ∀ w, ¬ is_assertion (c w).1.

(** The code the script calls in [utils], [model.data_loader] and
    [model.net] raises no AssertionError of its own. *)
Definition externals_never_assert : Prop :=
  (∀ path, ¬ is_assertion (utils_Params env path)) ∧
  (∀ dir params, ¬ is_assertion (DataLoader_init env dir params)) ∧
  (∀ dir params dl names dir',
     DataLoader_init env dir params = Return dl →
     ¬ is_assertion (load_data dl names dir')) ∧
  (∀ params, ¬ is_assertion (net_BertDEF env params)) ∧
  (∀ params, ¬ is_assertion (net_SBertDEF env params)) ∧
  (∀ params, ¬ is_assertion (net_LuisNet env params)) ∧
  (∀ path net, ¬ is_assertion (utils_load_checkpoint env path net)).

End Evaluate.

(** ** A small data set, network and environment

    Concrete inputs on which the definitions above can be run. *)

Module Demo.

Definition q (n : Z) (d : positive) : Qc := Q2Qc (n # d).

(** Sentences of two words are scored [1], shorter ones [1/2]. *)
Definition model (b : @batch unit) : list (list Qc) :=
  (λ s, [q (Z.of_nat (length s)) 2]) <$> sentences b.

Definition predicted (row : list Qc) : bool :=
  bool_decide (q 1 2 < default 0 (head row)).

Definition count (sel : bool → bool → bool)
    (out : list (list Qc)) (labels : list Qc) : Qc :=
  of_nat (length (filter (λ '(row, l), sel (predicted row) (bool_decide (l = 1)) = true)
                         (zip out labels))).

Definition accuracy (out : list (list Qc)) (labels : list Qc) : Qc :=
  count (λ p l, bool_decide (p = l)) out labels / of_nat (length labels).

Definition tp : list (list Qc) → list Qc → Qc := count (λ p l, p && l).
Definition fp : list (list Qc) → list Qc → Qc := count (λ p l, p && negb l).
Definition fn : list (list Qc) → list Qc → Qc := count (λ p l, negb p && l).

Definition metrics : gmap string (list (list Qc) → list Qc → Qc) :=
  <["accuracy" := accuracy]>
    (<["tp" := tp]> (<["fp" := fp]> (<["fn" := fn]> ∅))).

(** The same metrics and one more, under a name [evaluate] also uses. *)
Definition metrics_with_precision
  : gmap string (list (list Qc) → list Qc → Qc) :=
  <["precision" := λ _ _, 1]> metrics.

Definition loss_fn (out : list (list Qc)) (labels : list Qc) : Qc :=
  Np.sum (zip_with (λ row l, (default 0 (head row) - l) * (default 0 (head row) - l))
                   out labels).

(** One true positive, one true negative. *)
Definition b1 : @batch unit :=
  {| sentences := [["a"; "b"]; ["c"]]; features := ();
     slabels := [q 1 1; q 0 1] |}.

(** One false positive, one false negative. *)
Definition b2 : @batch unit :=
  {| sentences := [["d"; "e"]; ["f"]]; features := ();
     slabels := [q 0 1; q 1 1] |}.

Definition w0 : @world unit := {| generator := [b1; b2; b1]; effects := [] |}.
Definition w2 : @world unit := {| generator := [b2]; effects := [] |}.

Definition tags : gmap Z string := <[0%Z := "O"]> (<[1%Z := "DEF"]> ∅).

(** What [r] returned, or [d] if it raised. *)
Definition returned {A} (d : A) (r : result A) : A :=
  match r with
  | Return a => a
  | Raise _ => d
  end.

(** Two batches, tp = fp = fn = 1. *)
Definition run0 : gmap string Qc * Qc * @world unit :=
  Eval vm_compute in
    let '(r, w) := evaluate None model loss_fn metrics 2 w0 in
    (returned (∅, 0) r, w).

(** One batch, tp = 0. *)
Definition run2 : gmap string Qc * Qc * @world unit :=
  Eval vm_compute in
    let '(r, w) := evaluate None model loss_fn metrics 1 w2 in
    (returned (∅, 0) r, w).

(** The same batch with the additional metric. *)
Definition run2p : gmap string Qc * Qc * @world unit :=
  Eval vm_compute in
    let '(r, w) := evaluate None model loss_fn metrics_with_precision 1 w2 in
    (returned (∅, 0) r, w).

(** The sums of the counts over the batches of a run. *)
Definition total (metric : list (list Qc) → list Qc → Qc)
    (num_steps : Z) (w : @world unit) : Qc :=
  Np.sum (metric_values model metric (batches_fetched num_steps w)).

(** The script's surroundings: [params.json] is there, the test split
    holds [b1] and [b2], every checkpoint loads. *)
Definition loader : @DataLoader unit (list (@batch unit)) :=
  {| sid2tag := tags;
     load_data := λ _ _, Return {["test" := [b1; b2]]};
     data_iterator := λ d _, d |}.

Definition env : @environment unit (list (@batch unit)) unit :=
  {| os_path_isfile := λ p, bool_decide (p = "experiments/base_model/params.json");
     utils_Params := λ _, Return {| model_type := "bert"; batch_size := 2;
                                    cuda := false; test_size := 0 |};
     torch_cuda_is_available := false;
     DataLoader_init := λ _ _, Return loader;
     dataset_size := λ d, (2 * Z.of_nat (length d))%Z;
     net_BertDEF := λ _, Return ();
     net_SBertDEF := λ _, Return ();
     net_LuisNet := λ _, Return ();
     net_forward := λ _, model;
     net_loss_fn := loss_fn;
     net_metrics := metrics;
     utils_load_checkpoint := λ _ n, Return n |}.

Definition fresh : @world unit := {| generator := []; effects := [] |}.

Definition script_run : @world unit :=
  Eval vm_compute in (script env default_args fresh).2.

(** A model directory without [params.json]. *)
Definition elsewhere : args :=
  {| data_dir := "data/small"; model_dir := "nowhere";
     restore_file := "best" |}.

End Demo.

(** ** Notions used to state the further properties *)

Section Further.

Context {Features Dataset Net : Type}.




(** The first of ['tp'], ['fp'], ['fn'], in the order line 75-77 read
    them, that [metrics] lacks. *)
Definition first_missing_count
    (metrics : gmap string (list (list Qc) → list Qc → Qc)) : option string :=
  head (filter (λ k, metrics !! k = None) ["tp"; "fp"; "fn"]).

(** The keys of the dictionary evaluate returns for [metrics]. *)
Definition reported_keys
    (metrics : gmap string (list (list Qc) → list Qc → Qc)) : gset string :=
  ({["loss"; "f1score"; "precision"; "recall"]} ∪ dom metrics)
  ∖ {["tp"; "fp"; "fn"]}.

(** The class a row of scores stands for: 1 when its first score exceeds
    one half, 0 otherwise. *)
Definition predicted_id (row : list Qc) : option Z :=
  (λ v : Qc, if bool_decide (Q2Qc (1 # 2) < v) then 1%Z else 0%Z) <$> head row.

(** The line for the words [x], the scores [row] and the label [z]: the
    words, the tag of the predicted class, the tag of the label. *)
Definition tagged_line (sid2tag : gmap Z string)
    (x : list string) (row : list Qc) (z : Qc) : option string :=
  y ← predicted_id row;
  ty ← sid2tag !! y;
  tz ← sid2tag !! int z;
  Some (str_join " " x +:+ "<" +:+ ty +:+ "/>" +:+ "<" +:+ tz +:+ "/>").

(** Everything the script loads before it counts its steps loads without
    an exception: the parameters, the data, the network by its
    [model_type], the checkpoint. *)
Definition loads (env : @environment Features Dataset Net) (a : args)
    (params : Params) (dl : @DataLoader Features Dataset)
    (test_data : Dataset) (net : Net) : Prop :=
  let json_path := os_path_join (model_dir a) "params.json" in
  os_path_isfile env json_path = true ∧
  ∃ params0 data net0,
    utils_Params env json_path = Return params0 ∧
    DataLoader_init env (data_dir a)
                    (set_cuda (torch_cuda_is_available env) params0)
    = Return dl ∧
    load_data dl ["test"] (data_dir a) = Return data ∧
    data !! "test" = Some test_data ∧
    params = set_test_size (dataset_size env test_data)
               (set_cuda (torch_cuda_is_available env) params0) ∧
    (if bool_decide (model_type params = "bert") then net_BertDEF env params
     else if bool_decide (model_type params = "sbert")
     then net_SBertDEF env params
     else net_LuisNet env params) = Return net0 ∧
    utils_load_checkpoint env
      (os_path_join (model_dir a) (restore_file a +:+ ".pth.tar")) net0
    = Return net.

(** The world once all that is loaded: the test iterator is in place and
    four file system calls are made. *)
Definition loaded (a : args) (params : Params)
    (dl : @DataLoader Features Dataset) (test_data : Dataset)
    (w : @world Features) : @world Features :=
  {| generator := data_iterator dl test_data params;
     effects := effects w ++
       [read_params (os_path_join (model_dir a) "params.json");
        set_logger (os_path_join (model_dir a) "evaluate.log");
        load_dataset (data_dir a);
        load_checkpoint
          (os_path_join (model_dir a) (restore_file a +:+ ".pth.tar"))] |}.


(** The script from line 152 on: count the steps, evaluate, save. *)
Definition evaluate_and_save (env : @environment Features Dataset Net)
    (a : args) (params : Params) (dl : @DataLoader Features Dataset)
    (net : Net) : @M Features unit :=
  num_steps ← lift (floordiv (test_size params + 1) (batch_size params));
  '(test_metrics, _) ←
    evaluate (Some {| g_args := a; g_sid2tag := sid2tag dl |})
             (net_forward env net) (net_loss_fn env) (net_metrics env)
             num_steps;
  let save_path :=
    os_path_join (model_dir a)
                 ("metrics_test_" +:+ restore_file a +:+ ".json") in
  perform (save_dict_to_json test_metrics save_path).

End Further.

(** ** More concrete inputs *)

Module Demo2.

(** The metrics of [Demo] without the false positives. *)
Definition metrics_without_fp : gmap string (list (list Qc) → list Qc → Qc) :=
  delete "fp" Demo.metrics.



(** The lines tagged for the first batch. *)
Definition lines_b1 : list string :=
  Eval vm_compute in
    Demo.returned [] (tag_batch Demo.tags Demo.b1 (Demo.model Demo.b1)).

(** The surroundings of [Demo] with another [batch_size]. *)
Definition env_with (size : Z) : @environment unit (list (@batch unit)) unit :=
  {| os_path_isfile := os_path_isfile Demo.env;
     utils_Params := λ _, Return {| model_type := "bert"; batch_size := size;
                                    cuda := false; test_size := 0 |};
     torch_cuda_is_available := false;
     DataLoader_init := DataLoader_init Demo.env;
     dataset_size := dataset_size Demo.env;
     net_BertDEF := net_BertDEF Demo.env;
     net_SBertDEF := net_SBertDEF Demo.env;
     net_LuisNet := net_LuisNet Demo.env;
     net_forward := net_forward Demo.env;
     net_loss_fn := net_loss_fn Demo.env;
     net_metrics := net_metrics Demo.env;
     utils_load_checkpoint := utils_load_checkpoint Demo.env |}.

Definition params_with (size : Z) : Params :=
  {| model_type := "bert"; batch_size := size; cuda := false; test_size := 4 |}.

(** A checkpoint given by an absolute path. *)
Definition absolute : args :=
  {| data_dir := "data/small"; model_dir := "experiments/base_model";
     restore_file := "/ckpt/best" |}.

Definition absolute_run : @world unit :=
  Eval vm_compute in (script Demo.env absolute Demo.fresh).2.


End Demo2.

(** * Properties *)

(** ** The two monads *)

Lemma result_bind_Return {A B} (m : result A) (f : A → result B) (b : B) :
  m ≫= f = Return b → ∃ a, m = Return a ∧ f a = Return b.
Proof. destruct m as [a|e]; [by exists a | discriminate]. Qed.

Lemma result_fmap_Return {A B} (f : A → B) (m : result A) (b : B) :
  f <$> m = Return b → ∃ a, m = Return a ∧ b = f a.
Proof.
  destruct m as [a|e]; [|discriminate].
  intros [= <-]. by exists a.
Qed.

Lemma mapM_Return {A B} (f : A → result B) (l : list A) (k : list B) :
  mapM f l = Return k ↔ Forall2 (λ x y, f x = Return y) l k.
Proof.
  split.
  - revert k. induction l as [|x l IH]; intros k Hk; simpl in Hk.
    + injection Hk as <-. constructor.
    + apply result_bind_Return in Hk as (y & Hy & Hk).
      apply result_bind_Return in Hk as (k' & Hk' & Hk).
      injection Hk as <-. constructor; auto.
  - induction 1 as [|x y l k Hxy _ IH]; simpl; [done|].
    by rewrite Hxy; simpl; rewrite IH.
Qed.

Lemma mapM_Return_length {A B} (f : A → result B) (l : list A) (k : list B) :
  mapM f l = Return k → length k = length l.
Proof. intros H%mapM_Return. symmetry. by eapply Forall2_length. Qed.

Lemma result_bind_of_Return {A B} (a : A) (f : A → result B) :
  Return a ≫= f = f a.
Proof. reflexivity. Qed.

Lemma result_bind_Raise {A B} (m : result A) (f : A → result B) (e : exn) :
  m ≫= f = Raise e → m = Raise e ∨ ∃ a, m = Return a ∧ f a = Raise e.
Proof.
  destruct m as [a|e']; simpl; intros H.
  - right. by exists a.
  - left. by injection H as ->.
Qed.

Lemma mapM_Raise {A B} (f : A → result B) (l : list A) (e : exn) :
  mapM f l = Raise e → ∃ x, x ∈ l ∧ f x = Raise e.
Proof.
  induction l as [|x l IH]; simpl; [done|]. intros H.
  apply result_bind_Raise in H as [H|(y & Hy & H)].
  - exists x. split; [left|done].
  - apply result_bind_Raise in H as [H|(k & Hk & H)]; [|discriminate H].
    destruct (IH H) as (x' & Hin & Hx'). exists x'. split; [by right|done].
Qed.

Lemma mapM_returns {A B} (f : A → result B) (l : list A) :
  (∀ x, x ∈ l → ∃ y, f x = Return y) → ∃ k, mapM f l = Return k.
Proof.
  induction l as [|x l IH]; intros Hf; simpl; [by eexists|].
  destruct (Hf x) as [y ->]; [left|].
  destruct IH as [k ->]; [intros x' Hx'; apply Hf; by right|].
  by eexists.
Qed.

Section Theory.

Context {Features : Type}.
Implicit Types (w : @world Features) (b : @batch Features).

Lemma M_bind_Return {A B} (m : M A) (f : A → M B) w w' (y : B) :
  (m ≫= f) w = (Return y, w') →
  ∃ a w1, m w = (Return a, w1) ∧ f a w1 = (Return y, w').
Proof.
  unfold mbind, M_bind. destruct (m w) as [[a|e] w1]; [|discriminate].
  intros H. by exists a, w1.
Qed.

Lemma M_ret_Return {A} (a y : A) w w' :
  (mret a : M A) w = (Return y, w') → y = a ∧ w' = w.
Proof. by intros [= -> ->]. Qed.

Lemma lift_Return {A} (r : result A) (a : A) w w' :
  lift r w = (Return a, w') → r = Return a ∧ w' = w.
Proof. by intros [= -> ->]. Qed.

(** ** Dictionary comprehensions *)

Lemma dict_comprehension_Return {V W} (g : string → result W)
    (keys : gmap string V) (d : gmap string W) :
  dict_comprehension g keys = Return d →
  ∀ k, match keys !! k with
       | Some _ => ∃ v, g k = Return v ∧ d !! k = Some v
       | None => d !! k = None
       end.
Proof.
  unfold dict_comprehension.
  intros (l & Hl & ->)%result_fmap_Return k.
  apply mapM_Return in Hl.
  assert (Hfst : l.*1 = (map_to_list keys).*1).
  { clear k. induction Hl as [|[k v] [k' v'] ?? Hkv _ IH]; [done|].
    apply result_bind_Return in Hkv as (v'' & _ & [= -> _]).
    rewrite !fmap_cons. by f_equal. }
  destruct (keys !! k) as [v|] eqn:Hk.
  - apply elem_of_map_to_list in Hk.
    apply list_elem_of_lookup in Hk as [i Hi].
    destruct (Forall2_lookup_l _ _ _ _ _ Hl Hi) as ([k' v'] & Hi' & Hkv).
    apply result_bind_Return in Hkv as (v'' & Hg & [= -> ->]).
    exists v'. split; [done|].
    apply elem_of_list_to_map_1.
    + rewrite Hfst. apply NoDup_fst_map_to_list.
    + apply list_elem_of_lookup. by exists i.
  - apply not_elem_of_list_to_map_1. rewrite Hfst.
    intros ([k' v] & -> & Hin%elem_of_map_to_list)%list_elem_of_fmap.
    simpl in Hk. congruence.
Qed.

Lemma dict_comprehension_returns {V W} (g : string → result W)
    (keys : gmap string V) :
  (∀ k, is_Some (keys !! k) → ∃ v, g k = Return v) →
  ∃ d, dict_comprehension g keys = Return d.
Proof.
  intros Hg. unfold dict_comprehension.
  destruct (mapM_returns
              (λ kv : string * V, v ← g kv.1; mret (kv.1, v))
              (map_to_list keys)) as [l ->]; [|by eexists].
  intros [k v] Hin%elem_of_map_to_list. simpl.
  destruct (Hg k) as [v' ->]; [by exists v|]. by eexists.
Qed.

(** ** The loop *)

Section LoopTheory.

Variable main : option (@script_globals).
Variable model : @batch Features → list (list Qc).
Variable loss_fn : list (list Qc) → list Qc → Qc.
Variable metrics : gmap string (list (list Qc) → list Qc → Qc).

Lemma loop_body_Return st w st' w' :
  loop_body main model loss_fn metrics st w = (Return st', w') →
  ∃ b, generator w = b :: generator w' ∧
       effects w' = effects w ∧
       summ st' = summ st ++ [summary_of model loss_fn metrics b] ∧
       loss_avg st' = Utils.update (loss_of model loss_fn b) (loss_avg st) ∧
       tagged_from main model [b] st st'.
Proof.
  unfold loop_body, tagged_from. intros H.
  apply M_bind_Return in H as (b & w1 & Hnext & H).
  unfold next in Hnext.
  destruct (generator w) as [|b' rest] eqn:Hgen; [discriminate|].
  injection Hnext as -> <-.
  apply M_bind_Return in H as (tagged' & w2 & Htag & H).
  apply M_ret_Return in H as [-> ->].
  exists b. destruct main as [g|].
  - apply M_bind_Return in Htag as (lines & w3 & Hlines & Htag).
    apply lift_Return in Hlines as [Hlines ->].
    apply M_ret_Return in Htag as [-> ->]. simpl.
    repeat split; try done.
    exists lines. split; [|done].
    unfold tag_batches. simpl. rewrite Hlines. simpl.
    by rewrite app_nil_r.
  - apply M_ret_Return in Htag as [-> ->]. by simpl.
Qed.

Lemma for_range_Return n : ∀ st w st' w',
  for_range n (loop_body main model loss_fn metrics) st w = (Return st', w') →
  ∃ bs, generator w = bs ++ generator w' ∧
        length bs = n ∧
        effects w' = effects w ∧
        summ st' = summ st ++ (summary_of model loss_fn metrics <$> bs) ∧
        loss_avg st' =
          foldl (λ avg b, Utils.update (loss_of model loss_fn b) avg)
                (loss_avg st) bs ∧
        tagged_from main model bs st st'.
Proof.
  induction n as [|n IH]; intros st w st' w' H; simpl in H.
  - apply M_ret_Return in H as [-> ->]. exists [].
    rewrite app_nil_r. repeat split; try done.
    unfold tagged_from. destruct main; [|done].
    exists []. by rewrite app_nil_r.
  - apply M_bind_Return in H as (st1 & w1 & Hbody & H).
    apply loop_body_Return in Hbody as (b & Hgen & Heff & Hsumm & Havg & Htag).
    apply IH in H as (bs & Hgen' & Hlen & Heff' & Hsumm' & Havg' & Htag').
    exists (b :: bs). rewrite Hgen, Hgen'. simpl.
    rewrite Hsumm', Hsumm, Havg', Havg, <- app_assoc.
    repeat split; try done; try congruence.
    revert Htag Htag'. unfold tagged_from. destruct main as [g|]; [|congruence].
    intros (l1 & Hl1 & ->) (l2 & Hl2 & ->). exists (l1 ++ l2).
    split; [|by rewrite app_assoc].
    revert Hl1 Hl2. unfold tag_batches. simpl.
    destruct (tag_batch _ b _) as [t|]; [|done]. simpl.
    intros [= <-]. destruct (mapM _ bs) as [ts|]; [|done]. simpl.
    intros [= <-]. by rewrite app_nil_r.
Qed.

(** The loop runs to its end when the generator holds enough batches and,
    in the script, every sentence fetched can be tagged. *)
Lemma for_range_returns n : ∀ st w,
  (n ≤ length (generator w))%nat →
  (∀ g, main = Some g →
     Forall (λ b, ∃ lines, tag_batch (g_sid2tag g) b (model b) = Return lines)
            (take n (generator w))) →
  ∃ st' w', for_range n (loop_body main model loss_fn metrics) st w = (Return st', w').
Proof.
  induction n as [|n IH]; intros st w Hlen Htag; simpl.
  - by eexists _, _.
  - destruct w as [[|b rest] eff]; simpl in Hlen; [lia|].
    assert (∃ st1, loop_body main model loss_fn metrics st {| generator := b :: rest; effects := eff |}
                   = (Return st1, {| generator := rest; effects := eff |}))
      as [st1 Hst1].
    { unfold loop_body, mbind, M_bind, next. simpl.
      destruct main as [g|] eqn:Hmain; [|by eexists].
      specialize (Htag g eq_refl). simpl in Htag.
      apply Forall_cons_1 in Htag as [[lines Hlines] _].
      unfold lift. rewrite Hlines. by eexists. }
    destruct (IH st1 {| generator := rest; effects := eff |})
      as (st' & w' & Hrun).
    + simpl. lia.
    + intros g Hg. specialize (Htag g Hg). simpl in Htag.
      by apply Forall_cons_1 in Htag as [_ ?].
    + exists st', w'. unfold mbind, M_bind. by rewrite Hst1.
Qed.

End LoopTheory.

(** ** Aggregation *)

Lemma getitem_Return {V} (d : gmap string V) (k : string) (v : V) :
  getitem d k = Return v ↔ d !! k = Some v.
Proof.
  unfold getitem. destruct (d !! k); split; congruence.
Qed.

Lemma delitem_Return {V} (d d' : gmap string V) (k : string) :
  delitem d k = Return d' → is_Some (d !! k) ∧ d' = delete k d.
Proof.
  unfold delitem. destruct (d !! k) as [v|]; [|done].
  intros [= <-]. eauto.
Qed.

Lemma truediv_Return (a b q : Qc) :
  truediv a b = Return q ↔ b ≠ 0 ∧ q = a / b.
Proof.
  unfold truediv. destruct (decide (b = 0)) as [->|Hb]; split.
  - done.
  - by intros [? _].
  - by intros [= <-].
  - by intros [_ ->].
Qed.

Lemma column_Return (k : string) (summ : list (gmap string Qc))
    (vs : list Qc) :
  column k summ = Return vs ↔ Forall2 (λ x v, x !! k = Some v) summ vs.
Proof.
  unfold column. rewrite mapM_Return.
  split; apply Forall2_impl; intros x v; apply getitem_Return.
Qed.

Lemma mean_Return (vs : list Qc) (v : Qc) :
  Np.mean vs = Return v ↔
  of_nat (length vs) ≠ 0 ∧ v = Np.sum vs / of_nat (length vs).
Proof. apply truediv_Return. Qed.

(** What a returning [aggregate] has computed: [mm] is the dictionary of
    means over the keys of the first summary, the scores come from the
    three sums, and the result is [mm] with the scores set and the
    counts deleted. *)
Lemma aggregate_Return (summ : list (gmap string Qc)) (m : gmap string Qc) :
  aggregate summ = Return m →
  ∃ x rest mm tps fps fns p r f1,
    summ = x :: rest ∧
    dict_comprehension
      (λ metric, col ← column metric summ; Np.mean col) x = Return mm ∧
    column "tp" summ = Return tps ∧
    column "fp" summ = Return fps ∧
    column "fn" summ = Return fns ∧
    f1_scores (Np.sum tps) (Np.sum fps) (Np.sum fns) = Return (p, r, f1) ∧
    m = delete "fn" (delete "fp" (delete "tp"
          (<["recall" := r]> (<["precision" := p]> (<["f1score" := f1]> mm))))).
Proof.
  unfold aggregate. intros H.
  apply result_bind_Return in H as (x & Hx & H).
  destruct summ as [|x' rest]; [discriminate|]. injection Hx as ->.
  apply result_bind_Return in H as (mm & Hmm & H).
  apply result_bind_Return in H as (x' & [= <-] & H).
  apply result_bind_Return in H as (ms & Hms & H).
  pose proof (dict_comprehension_Return _ _ _ Hms) as Hsum.
  assert (Hcol : ∀ k v, ms !! k = Some v →
                   ∃ vs, column k (x :: rest) = Return vs ∧ v = Np.sum vs).
  { intros k v Hk. specialize (Hsum k). destruct (x !! k).
    - destruct Hsum as (v' & (vs & Hvs & ->)%result_fmap_Return & Hk').
      exists vs. split; congruence.
    - congruence. }
  apply result_bind_Return in H as (tp & Htp%getitem_Return & H).
  apply result_bind_Return in H as (fp & Hfp%getitem_Return & H).
  apply result_bind_Return in H as (fn & Hfn%getitem_Return & H).
  apply Hcol in Htp as (tps & Htps & ->).
  apply Hcol in Hfp as (fps & Hfps & ->).
  apply Hcol in Hfn as (fns & Hfns & ->).
  apply result_bind_Return in H as ([[p r] f1] & Hf1 & H).
  simpl in H.
  apply result_bind_Return in H as (d1 & [_ ->]%delitem_Return & H).
  apply result_bind_Return in H as (d2 & [_ ->]%delitem_Return & H).
  apply result_bind_Return in H as (d3 & [_ ->]%delitem_Return & [= <-]).
  by exists x, rest, mm, tps, fps, fns, p, r, f1.
Qed.

(** ** Precision, recall and F1 from the three sums *)

Lemma f1_scores_zero (fp fn : Qc) : f1_scores 0 fp fn = Return (0, 0, 0).
Proof. unfold f1_scores. by destruct (decide ((0 : Qc) ≠ 0)). Qed.

Lemma f1_scores_nonzero (tp fp fn p r f1 : Qc) :
  tp ≠ 0 →
  f1_scores tp fp fn = Return (p, r, f1) ↔
  tp + fp ≠ 0 ∧ tp + fn ≠ 0 ∧
  p = tp / (tp + fp) ∧ r = tp / (tp + fn) ∧
  p + r ≠ 0 ∧ f1 = 2 * (p * r) / (p + r).
Proof.
  intros Htp. unfold f1_scores. destruct (decide (tp ≠ 0)); [|done]. split.
  - intros H.
    apply result_bind_Return in H as (p' & [Hp ->]%truediv_Return & H).
    apply result_bind_Return in H as (r' & [Hr ->]%truediv_Return & H).
    apply result_bind_Return in H as (f' & [Hf ->]%truediv_Return & H).
    by injection H as <- <- <-.
  - intros (Hp & Hr & -> & -> & Hpr & ->).
    unfold truediv.
    destruct (decide (tp + fp = 0)); [done|]. simpl.
    destruct (decide (tp + fn = 0)); [done|]. simpl.
    by destruct (decide (tp / (tp + fp) + tp / (tp + fn) = 0)).
Qed.

Lemma Qc_pos_of_nonneg_nonzero (x : Qc) : 0 ≤ x → x ≠ 0 → 0 < x.
Proof. intros [H| <-]%Qcle_lt_or_eq Hx; done. Qed.

Lemma Qcdiv_pos (x y : Qc) : 0 < x → 0 < y → 0 < x / y.
Proof. intros Hx Hy. apply Qcmult_pos_pos; [done|]. by apply Qcinv_pos. Qed.

(** With counts that are not negative, the test [tp != 0] leaves no
    zero divisor. *)
Lemma f1_divisors_nonzero (tp fp fn : Qc) :
  0 ≤ tp → 0 ≤ fp → 0 ≤ fn → tp ≠ 0 →
  tp + fp ≠ 0 ∧ tp + fn ≠ 0 ∧ tp / (tp + fp) + tp / (tp + fn) ≠ 0.
Proof.
  intros Htp Hfp Hfn Hne.
  pose proof (Qc_pos_of_nonneg_nonzero _ Htp Hne) as Hpos.
  assert (0 < tp + fp) as H1 by by apply Qcplus_pos_nonneg.
  assert (0 < tp + fn) as H2 by by apply Qcplus_pos_nonneg.
  assert (0 < tp / (tp + fp) + tp / (tp + fn)) as H3
    by (apply Qcplus_pos_pos; by apply Qcdiv_pos).
  repeat split; apply not_eq_sym; by apply Qclt_not_eq.
Qed.

Lemma sum_nonneg (vs : list Qc) : Forall (λ v, 0 ≤ v) vs → 0 ≤ Np.sum vs.
Proof.
  induction 1 as [|v vs Hv _ IH]; simpl; [done|].
  by apply Qcplus_nonneg_nonneg.
Qed.

Lemma of_nat_zero (n : nat) : of_nat n = 0 → n = 0%nat.
Proof.
  unfold of_nat. intros H%Q2Qc_eq_iff.
  unfold Qeq in H. simpl in H. lia.
Qed.

(** ** No division by zero in the aggregation *)

Lemma dict_comprehension_Raise {V W} (g : string → result W)
    (keys : gmap string V) (e : exn) :
  dict_comprehension g keys = Raise e →
  ∃ k, is_Some (keys !! k) ∧ g k = Raise e.
Proof.
  unfold dict_comprehension. intros H.
  destruct (mapM _ (map_to_list keys)) as [l|e'] eqn:Hl; [done|].
  injection H as ->.
  apply mapM_Raise in Hl as ([k v] & Hin%elem_of_map_to_list & Hk).
  exists k. split; [by exists v|].
  simpl in Hk. by apply result_bind_Raise in Hk as [Hk|(? & _ & [=])].
Qed.


Lemma column_nonneg (k : string) (summ : list (gmap string Qc)) (vs : list Qc) :
  counts_nonnegative summ → k ∈ ["tp"; "fp"; "fn"] →
  column k summ = Return vs → Forall (λ v, 0 ≤ v) vs.
Proof.
  intros Hsumm Hk Hvs%column_Return. apply Forall_lookup. intros i v Hi.
  destruct (Forall2_lookup_r _ _ _ _ _ Hvs Hi) as (x & Hx & Hxv).
  apply (Hsumm x k v); [|done..].
  apply list_elem_of_lookup. by exists i.
Qed.

Lemma f1_scores_of_counts (tp fp fn : Qc) :
  0 ≤ tp → 0 ≤ fp → 0 ≤ fn →
  (tp = 0 → f1_scores tp fp fn = Return (0, 0, 0)) ∧
  (tp ≠ 0 →
     let p := tp / (tp + fp) in
     let r := tp / (tp + fn) in
     tp + fp ≠ 0 ∧ tp + fn ≠ 0 ∧ p + r ≠ 0 ∧
     f1_scores tp fp fn = Return (p, r, 2 * (p * r) / (p + r))).
Proof.
  intros Htp Hfp Hfn. split.
  - intros ->. apply f1_scores_zero.
  - intros Hne p r.
    destruct (f1_divisors_nonzero tp fp fn) as (H1 & H2 & H3); [done..|].
    repeat split; try done. by apply f1_scores_nonzero.
Qed.


(** ** A returning call of evaluate *)

Section EvaluateTheory.

Variable main : option (@script_globals).
Variable model : @batch Features → list (list Qc).
Variable loss_fn : list (list Qc) → list Qc → Qc.
Variable metrics : gmap string (list (list Qc) → list Qc → Qc).

Lemma column_summaries_loss (bs : list batch) :
  column "loss" (summary_of model loss_fn metrics <$> bs)
  = Return (loss_of model loss_fn <$> bs).
Proof.
  apply column_Return, Forall2_fmap, Forall2_same_length_lookup.
  split; [done|]. intros i b b' Hb Hb'.
  assert (b' = b) as -> by congruence.
  unfold summary_of, loss_of. by rewrite lookup_insert_eq.
Qed.

Lemma column_summaries_metric (k : string) f (bs : list batch) :
  k ≠ "loss" → metrics !! k = Some f →
  column k (summary_of model loss_fn metrics <$> bs)
  = Return (metric_values model f bs).
Proof.
  intros Hk Hf. unfold metric_values.
  apply column_Return, Forall2_fmap, Forall2_same_length_lookup.
  split; [done|]. intros i b b' Hb Hb'.
  assert (b' = b) as -> by congruence.
  unfold summary_of. rewrite lookup_insert_ne by done.
  by rewrite lookup_fmap, Hf.
Qed.

(** The pieces of a call that returns: the loop has taken the first
    [num_steps] batches, the dictionary is the aggregate of their
    summaries, and the average is the accumulator's, fed with their
    losses in order. *)
Lemma evaluate_Return num_steps w m avg w' :
  evaluate main model loss_fn metrics num_steps w = (Return (m, avg), w') →
  let bs := batches_fetched num_steps w in
  generator w = bs ++ generator w' ∧
  length bs = Z.to_nat num_steps ∧
  aggregate (summary_of model loss_fn metrics <$> bs) = Return m ∧
  Utils.call (foldl (λ a b, Utils.update (loss_of model loss_fn b) a)
                    Utils.RunningAverage_init bs) = Return avg ∧
  ∃ st w1,
    for_range (Z.to_nat num_steps)
              (loop_body main model loss_fn metrics) loop_init w
    = (Return st, w1) ∧
    generator w1 = generator w' ∧
    summ st = summary_of model loss_fn metrics <$> bs ∧
    tagged_from main model bs loop_init st ∧
    effects w' = effects w ++
      match main with
      | Some g =>
          [write_text (os_path_join (model_dir (g_args g))
                                    "output_tagged_sentences.txt")
                      (str_join newline (tagged_sentences st))]
      | None => []
      end.
Proof.
  unfold evaluate. intros H.
  apply M_bind_Return in H as (st & w1 & Hloop & H).
  pose proof Hloop as Hrun.
  apply for_range_Return in Hloop
    as (bs & Hgen & Hlen & Heff & Hsumm & Havg & Htag).
  apply M_bind_Return in H as (m' & w2 & [Hagg ->]%lift_Return & H).
  apply M_bind_Return in H as ([] & w3 & Hwrite & H).
  apply M_bind_Return in H as (avg' & w4 & [Hcall ->]%lift_Return & H).
  apply M_ret_Return in H as [[= -> ->] ->].
  assert (Hbs : batches_fetched num_steps w = bs).
  { unfold batches_fetched. rewrite Hgen, <- Hlen. apply take_app_length. }
  simpl. rewrite Hbs. simpl in Hsumm, Havg.
  rewrite <- Hsumm, <- Havg.
  repeat split; try done.
  - rewrite Hgen. f_equal.
    destruct main; [by injection Hwrite as <-|].
    by apply M_ret_Return in Hwrite as [_ ->].
  - exists st, w1. repeat split; try done.
    + destruct main; [by injection Hwrite as <-|].
      by apply M_ret_Return in Hwrite as [_ ->].
    + destruct main.
      * injection Hwrite as <-. simpl. by rewrite Heff.
      * apply M_ret_Return in Hwrite as [_ ->]. by rewrite app_nil_r.
Qed.

(** What is left of the dictionary of means [mm] once the scores are
    set and the counts deleted. *)
Lemma reported_lookup (mm : gmap string Qc) (p r f1 : Qc) (k : string) :
  let m := delete "fn" (delete "fp" (delete "tp"
             (<["recall" := r]> (<["precision" := p]>
                (<["f1score" := f1]> mm))))) in
  m !! k =
    if bool_decide (k ∈ ["tp"; "fp"; "fn"]) then None
    else if bool_decide (k = "recall") then Some r
    else if bool_decide (k = "precision") then Some p
    else if bool_decide (k = "f1score") then Some f1
    else mm !! k.
Proof.
  simpl. destruct (decide (k ∈ ["tp"; "fp"; "fn"])) as [Hin|Hout].
  - rewrite bool_decide_eq_true_2 by done.
    set_unfold in Hin. destruct Hin as [->|[->|[->|[]]]]; by simplify_map_eq.
  - rewrite bool_decide_eq_false_2 by done.
    rewrite !lookup_delete_ne by set_solver.
    repeat case_bool_decide; subst; by simplify_map_eq.
Qed.

Lemma evaluate_scores num_steps w m avg w' f_tp f_fp f_fn :
  evaluate main model loss_fn metrics num_steps w = (Return (m, avg), w') →
  metrics !! "tp" = Some f_tp →
  metrics !! "fp" = Some f_fp →
  metrics !! "fn" = Some f_fn →
  let bs := batches_fetched num_steps w in
  ∃ p r f1,
    f1_scores (Np.sum (metric_values model f_tp bs))
              (Np.sum (metric_values model f_fp bs))
              (Np.sum (metric_values model f_fn bs)) = Return (p, r, f1) ∧
    m !! "precision" = Some p ∧
    m !! "recall" = Some r ∧
    m !! "f1score" = Some f1.
Proof.
  intros H Htp Hfp Hfn bs.
  apply evaluate_Return in H as (_ & _ & Hagg & _).
  apply aggregate_Return in Hagg
    as (x & rest & mm & tps & fps & fns & p & r & f1
        & Hsumm & _ & Htps & Hfps & Hfns & Hf1 & ->).
  subst bs.
  rewrite (column_summaries_metric "tp" f_tp) in Htps by done.
  rewrite (column_summaries_metric "fp" f_fp) in Hfps by done.
  rewrite (column_summaries_metric "fn" f_fn) in Hfns by done.
  injection Htps as <-. injection Hfps as <-. injection Hfns as <-.
  exists p, r, f1. by rewrite !reported_lookup.
Qed.

(** A key that [evaluate] neither deletes nor sets holds the mean of
    its column. *)
Lemma evaluate_mean num_steps w m avg w' k vs :
  evaluate main model loss_fn metrics num_steps w = (Return (m, avg), w') →
  k ∉ ["tp"; "fp"; "fn"] →
  k ∉ ["f1score"; "precision"; "recall"] →
  batch_values model loss_fn metrics k (batches_fetched num_steps w) vs →
  length vs = Z.to_nat num_steps ∧
  of_nat (length vs) ≠ 0 ∧
  m !! k = Some (Np.sum vs / of_nat (length vs)).
Proof.
  intros H Hk1 Hk2 Hvs.
  apply evaluate_Return in H as (_ & Hlen & Hagg & _).
  apply aggregate_Return in Hagg
    as (x & rest & mm & _ & _ & _ & p & r & f1
        & Hsumm & Hmm & _ & _ & _ & _ & ->).
  assert (column k (summary_of model loss_fn metrics
                      <$> batches_fetched num_steps w) = Return vs) as Hcol
    by (apply column_Return, Forall2_fmap_l; exact Hvs).
  clear Hvs. rename Hcol into Hvs.
  pose proof (dict_comprehension_Return _ _ _ Hmm k) as Hmk.
  assert (is_Some (x !! k)) as [v0 Hx].
  { pose proof Hvs as Hvs'. rewrite Hsumm in Hvs'.
    apply column_Return in Hvs'. inversion Hvs'; subst; eauto. }
  rewrite Hx in Hmk. destruct Hmk as (v & Hv & Hlook).
  rewrite Hvs in Hv. simpl in Hv. apply mean_Return in Hv as [Hn ->].
  split; [|split; [done|]].
  - rewrite <- Hlen. apply column_Return, Forall2_length in Hvs.
    rewrite <- Hvs. by rewrite length_fmap.
  - rewrite reported_lookup.
    rewrite bool_decide_eq_false_2 by done.
    rewrite !bool_decide_eq_false_2; [done|set_solver..].
Qed.

Lemma loss_not_a_count : "loss" ∉ ["tp"; "fp"; "fn"].
Proof. apply (bool_decide_unpack _). vm_compute. exact I. Qed.

Lemma loss_not_a_score : "loss" ∉ ["f1score"; "precision"; "recall"].
Proof. apply (bool_decide_unpack _). vm_compute. exact I. Qed.

Lemma batch_values_metric (k : string) f (bs : list batch) :
  k ≠ "loss" → metrics !! k = Some f →
  batch_values model loss_fn metrics k bs (metric_values model f bs).
Proof.
  intros Hk Hf. unfold batch_values, metric_values.
  apply Forall2_fmap_r, Forall_Forall2_diag, Forall_forall. intros b _.
  unfold summary_of. rewrite lookup_insert_ne by done.
  by rewrite lookup_fmap, Hf.
Qed.

Lemma batch_values_loss (bs : list batch) :
  batch_values model loss_fn metrics "loss" bs (loss_of model loss_fn <$> bs).
Proof.
  apply Forall2_fmap_r, Forall_Forall2_diag, Forall_forall. intros b _.
  unfold summary_of, loss_of. by rewrite lookup_insert_eq.
Qed.

(** The accumulator after a list of batches. *)
Lemma running_average_foldl (bs : list batch) : ∀ acc,
  Utils.steps (foldl (λ a b, Utils.update (loss_of model loss_fn b) a) acc bs)
  = (Utils.steps acc + length bs)%nat ∧
  Utils.total (foldl (λ a b, Utils.update (loss_of model loss_fn b) a) acc bs)
  = Utils.total acc + Np.sum (loss_of model loss_fn <$> bs).
Proof.
  induction bs as [|b bs IH]; intros acc.
  - simpl. split; [lia|]. unfold Np.sum. simpl. ring.
  - rewrite fmap_cons. simpl foldl. simpl length.
    destruct (IH (Utils.update (loss_of model loss_fn b) acc)) as [-> ->].
    unfold Np.sum. simpl. split; [lia|ring].
Qed.

Lemma evaluate_Return_positive num_steps w m avg w' :
  evaluate main model loss_fn metrics num_steps w = (Return (m, avg), w') →
  (1 ≤ num_steps)%Z.
Proof.
  intros H.
  apply evaluate_Return in H as (_ & Hlen & Hagg & _).
  apply aggregate_Return in Hagg as (x & rest & ? & ? & ? & ? & ? & ? & ?
                                     & Hcons & _).
  apply (f_equal length) in Hcons. rewrite length_fmap in Hcons.
  simpl in Hcons. lia.
Qed.

(** ** When evaluate returns *)

Lemma summary_of_is_Some b b' (k : string) :
  is_Some (summary_of model loss_fn metrics b !! k) →
  is_Some (summary_of model loss_fn metrics b' !! k).
Proof.
  unfold summary_of. destruct (decide (k = "loss")) as [->|Hk].
  - rewrite !lookup_insert_eq. eauto.
  - rewrite !lookup_insert_ne, !lookup_fmap by done.
    destruct (metrics !! k); simpl; [eauto|by intros [? ?]].
Qed.

Lemma column_summaries_returns b (k : string) (bs : list batch) :
  is_Some (summary_of model loss_fn metrics b !! k) →
  ∃ vs, column k (summary_of model loss_fn metrics <$> bs) = Return vs ∧
        length vs = length bs.
Proof.
  intros Hk.
  destruct (mapM_returns (λ x : gmap string Qc, getitem x k)
              (summary_of model loss_fn metrics <$> bs)) as [vs Hvs].
  - intros x (b' & -> & _)%list_elem_of_fmap.
    destruct (summary_of_is_Some b b' k Hk) as [v Hv].
    exists v. by apply getitem_Return.
  - exists vs. split; [done|].
    apply mapM_Return_length in Hvs. by rewrite length_fmap in Hvs.
Qed.

(** The aggregation goes through for the summaries of at least one batch,
    when the metrics include the three counts and these are not
    negative. *)
Lemma aggregate_returns (bs : list batch) :
  bs ≠ [] →
  is_Some (metrics !! "tp") →
  is_Some (metrics !! "fp") →
  is_Some (metrics !! "fn") →
  counts_nonnegative (summary_of model loss_fn metrics <$> bs) →
  ∃ m, aggregate (summary_of model loss_fn metrics <$> bs) = Return m.
Proof.
  intros Hne [f_tp Htp] [f_fp Hfp] [f_fn Hfn] Hcounts.
  destruct bs as [|b bs']; [done|]. clear Hne.
  set (bs := b :: bs') in *.
  set (summ := summary_of model loss_fn metrics <$> bs) in *.
  assert (Hfirst : first_summary summ = Return (summary_of model loss_fn metrics b))
    by done.
  destruct (dict_comprehension_returns
              (λ metric, col ← column metric summ; Np.mean col)
              (summary_of model loss_fn metrics b)) as [mm Hmm].
  { intros k Hk.
    destruct (column_summaries_returns b k bs Hk) as (vs & Hvs & Hlen).
    fold summ in Hvs. rewrite Hvs. simpl. unfold Np.mean, truediv.
    case_decide as E; [|by eexists].
    apply of_nat_zero in E. rewrite Hlen in E. done. }
  destruct (dict_comprehension_returns
              (λ metric, Np.sum <$> column metric summ)
              (summary_of model loss_fn metrics b)) as [ms Hms].
  { intros k Hk.
    destruct (column_summaries_returns b k bs Hk) as (vs & Hvs & _).
    fold summ in Hvs. rewrite Hvs. by eexists. }
  assert (Hcount : ∀ k f, k ≠ "loss" → k ∈ ["tp"; "fp"; "fn"] →
            metrics !! k = Some f →
            is_Some (mm !! k) ∧
            ∃ v, ms !! k = Some v ∧ 0 ≤ v).
  { intros k f Hk Hin Hf.
    assert (summary_of model loss_fn metrics b !! k
            = Some (f (model b) (slabels b))) as Hb.
    { unfold summary_of. rewrite lookup_insert_ne by done.
      by rewrite lookup_fmap, Hf. }
    pose proof (dict_comprehension_Return _ _ _ Hmm k) as H1.
    pose proof (dict_comprehension_Return _ _ _ Hms k) as H2.
    rewrite Hb in H1, H2.
    destruct H1 as (v1 & _ & Hv1). destruct H2 as (v2 & Hg & Hv2).
    split; [by exists v1|]. exists v2. split; [done|].
    apply result_fmap_Return in Hg as (vs & Hvs & ->).
    eapply sum_nonneg, column_nonneg; eauto. }
  destruct (Hcount "tp" f_tp) as ([m1 Hm1] & tp & Htp' & Htp0);
    [done|rewrite !elem_of_cons; auto|done|].
  destruct (Hcount "fp" f_fp) as ([m2 Hm2] & fp & Hfp' & Hfp0);
    [done|rewrite !elem_of_cons; auto|done|].
  destruct (Hcount "fn" f_fn) as ([m3 Hm3] & fn & Hfn' & Hfn0);
    [done|rewrite !elem_of_cons; auto|done|].
  assert (∃ p r f1, f1_scores tp fp fn = Return (p, r, f1)) as (p & r & f1 & Hf1).
  { destruct (f1_scores_of_counts tp fp fn Htp0 Hfp0 Hfn0) as [Hz Hnz].
    destruct (decide (tp = 0)) as [E|E].
    - rewrite (Hz E). by eexists _, _, _.
    - destruct (Hnz E) as (_ & _ & _ & ->). by eexists _, _, _. }
  unfold aggregate.
  rewrite Hfirst, result_bind_of_Return, Hmm, result_bind_of_Return.
  rewrite result_bind_of_Return, Hms, result_bind_of_Return.
  unfold getitem. rewrite Htp', Hfp', Hfn', !result_bind_of_Return.
  rewrite Hf1, result_bind_of_Return.
  cbn [for_each]. unfold delitem.
  rewrite !lookup_insert_ne, Hm1, result_bind_of_Return by done.
  rewrite lookup_delete_ne, !lookup_insert_ne, Hm2, result_bind_of_Return by done.
  rewrite !lookup_delete_ne, !lookup_insert_ne, Hm3, result_bind_of_Return by done.
  by eexists.
Qed.

(** X17.  evaluate returns when called with at least one step on a
    generator that holds as many batches, with metrics that include the
    three counts, these not negative, and, in the script, with sentences
    that can all be tagged. *)
Lemma evaluate_returns num_steps w :
  (1 ≤ num_steps)%Z →
  (Z.to_nat num_steps ≤ length (generator w))%nat →
  is_Some (metrics !! "tp") →
  is_Some (metrics !! "fp") →
  is_Some (metrics !! "fn") →
  counts_nonnegative
    (summary_of model loss_fn metrics <$> batches_fetched num_steps w) →
  (∀ g, main = Some g →
     Forall (λ b, ∃ lines, tag_batch (g_sid2tag g) b (model b) = Return lines)
            (batches_fetched num_steps w)) →
  ∃ m avg w', evaluate main model loss_fn metrics num_steps w
              = (Return (m, avg), w').
Proof.
  intros Hpos Hlen Htp Hfp Hfn Hcounts Htag.
  destruct (for_range_returns main model loss_fn metrics (Z.to_nat num_steps)
              loop_init w Hlen Htag) as (st & w1 & Hrun).
  pose proof Hrun as Hloop.
  apply for_range_Return in Hloop
    as (bs & Hgen & Hbs & _ & Hsumm & Havg & _).
  assert (bs = batches_fetched num_steps w) as ->.
  { unfold batches_fetched. rewrite Hgen, <- Hbs. symmetry.
    apply take_app_length. }
  simpl in Hsumm, Havg.
  destruct (aggregate_returns (batches_fetched num_steps w)) as [m Hm];
    [|done..|].
  { intros E. rewrite E in Hbs. simpl in Hbs. lia. }
  destruct (running_average_foldl (batches_fetched num_steps w)
              Utils.RunningAverage_init) as [Hsteps Htotal].
  rewrite <- Havg in Hsteps, Htotal.
  unfold evaluate, mbind, M_bind. rewrite Hrun. unfold lift.
  rewrite Hsumm, Hm.
  assert (∃ avg, Utils.call (loss_avg st) = Return avg) as [avg Hcall].
  { unfold Utils.call, truediv. case_decide as E; [|by eexists].
    apply of_nat_zero in E. rewrite Hsteps in E. simpl in E. lia. }
  destruct main; simpl; rewrite Hcall; by eexists _, _, _.
Qed.

(** ** The claims about evaluate *)

(** C1.  In a call of evaluate that returns, with tp, fp and fn the sums
    over the fetched batches of the values of the metrics ['tp'], ['fp']
    and ['fn']: if tp = 0 the reported precision, recall and f1score are
    all 0; if tp = fp = fn = 1 they are all 1/2. *)
Theorem evaluate_scores_at_fixed_counts num_steps w m avg w' f_tp f_fp f_fn :
  evaluate main model loss_fn metrics num_steps w = (Return (m, avg), w') →
  metrics !! "tp" = Some f_tp →
  metrics !! "fp" = Some f_fp →
  metrics !! "fn" = Some f_fn →
  let bs := batches_fetched num_steps w in
  let tp := Np.sum (metric_values model f_tp bs) in
  let fp := Np.sum (metric_values model f_fp bs) in
  let fn := Np.sum (metric_values model f_fn bs) in
  (tp = 0 →
     m !! "precision" = Some 0 ∧ m !! "recall" = Some 0 ∧
     m !! "f1score" = Some 0) ∧
  (tp = 1 → fp = 1 → fn = 1 →
     m !! "precision" = Some (Q2Qc (1 # 2)) ∧
     m !! "recall" = Some (Q2Qc (1 # 2)) ∧
     m !! "f1score" = Some (Q2Qc (1 # 2))).
Proof.
  intros H Htp Hfp Hfn bs tp fp fn.
  destruct (evaluate_scores _ _ _ _ _ _ _ _ H Htp Hfp Hfn)
    as (p & r & f1 & Hf1 & -> & -> & ->).
  fold bs tp fp fn in Hf1. split.
  - intros E. rewrite E, f1_scores_zero in Hf1. by injection Hf1 as <- <- <-.
  - intros E1 E2 E3. rewrite E1, E2, E3 in Hf1.
    apply f1_scores_nonzero in Hf1 as (_ & _ & -> & -> & _ & ->); [|done].
    repeat split; apply (f_equal Some); by apply Qc_is_canon.
Qed.

(** C2.  In a call of evaluate that returns with a nonzero sum tp of the
    per-batch ['tp'] values, the reported precision is p = tp/(tp+fp),
    the reported recall is r = tp/(tp+fn), and the reported f1score is
    2*p*r/(p+r), where fp and fn are the sums (not the means) of the
    per-batch ['fp'] and ['fn'] values. *)
Theorem evaluate_f1_is_harmonic_mean num_steps w m avg w' f_tp f_fp f_fn :
  evaluate main model loss_fn metrics num_steps w = (Return (m, avg), w') →
  metrics !! "tp" = Some f_tp →
  metrics !! "fp" = Some f_fp →
  metrics !! "fn" = Some f_fn →
  let bs := batches_fetched num_steps w in
  let tp := Np.sum (metric_values model f_tp bs) in
  let fp := Np.sum (metric_values model f_fp bs) in
  let fn := Np.sum (metric_values model f_fn bs) in
  tp ≠ 0 →
  let p := tp / (tp + fp) in
  let r := tp / (tp + fn) in
  m !! "precision" = Some p ∧
  m !! "recall" = Some r ∧
  m !! "f1score" = Some (2 * p * r / (p + r)).
Proof.
  intros H Htp Hfp Hfn bs tp fp fn Hne p r.
  destruct (evaluate_scores _ _ _ _ _ _ _ _ H Htp Hfp Hfn)
    as (p' & r' & f1 & Hf1 & -> & -> & ->).
  apply f1_scores_nonzero in Hf1 as (_ & _ & -> & -> & _ & ->); [|done].
  split; [done|]. split; [done|].
  apply (f_equal Some). by rewrite (Qcmult_assoc 2).
Qed.

(** C4, as amended.  In a call of evaluate that returns, every key of the
    batch summaries other than ['tp'], ['fp'], ['fn'] and other than
    ['f1score'], ['precision'], ['recall'] (so ['loss'] too) is reported
    with the arithmetic mean of its per-batch values over the
    [num_steps] batches. *)
Theorem evaluate_reports_means num_steps w m avg w' k vs :
  evaluate main model loss_fn metrics num_steps w = (Return (m, avg), w') →
  k ∉ ["tp"; "fp"; "fn"] →
  k ∉ ["f1score"; "precision"; "recall"] →
  batch_values model loss_fn metrics k (batches_fetched num_steps w) vs →
  m !! k = Some (Np.sum vs / of_nat (Z.to_nat num_steps)).
Proof.
  intros H Hk1 Hk2 Hvs.
  destruct (evaluate_mean _ _ _ _ _ _ _ H Hk1 Hk2 Hvs) as (<- & _ & ->).
  done.
Qed.

(** C5.  A call of evaluate that returns has taken exactly [num_steps]
    batches from the data iterator, the first [num_steps] it held, and
    the list of summaries that is aggregated holds exactly one summary
    for each of them, in order. *)
Theorem evaluate_consumes_num_steps num_steps w m avg w' :
  evaluate main model loss_fn metrics num_steps w = (Return (m, avg), w') →
  let bs := batches_fetched num_steps w in
  generator w = bs ++ generator w' ∧
  Z.of_nat (length bs) = num_steps ∧
  ∃ st w1,
    for_range (Z.to_nat num_steps)
              (loop_body main model loss_fn metrics) loop_init w
    = (Return st, w1) ∧
    generator w1 = generator w' ∧
    summ st = summary_of model loss_fn metrics <$> bs ∧
    length (summ st) = length bs ∧
    aggregate (summ st) = Return m.
Proof.
  intros H bs.
  apply evaluate_Return in H
    as (Hgen & Hlen & Hagg & _ & st & w1 & Hrun & Hw1 & Hsumm & _).
  fold bs in Hgen, Hlen, Hagg, Hsumm.
  split; [done|]. split.
  - apply aggregate_Return in Hagg as (x & rest & ? & ? & ? & ? & ? & ? & ?
                                       & Hcons & _).
    apply (f_equal length) in Hcons. rewrite length_fmap in Hcons.
    simpl in Hcons. lia.
  - exists st, w1. rewrite Hsumm, length_fmap. by repeat split.
Qed.

(** C8.  evaluate is partial in [num_steps]: with [num_steps = 0] (or
    less) it raises IndexError at [summ[0]]; a call that returns has
    [num_steps >= 1]; and with [num_steps >= 1] a loop that has run to
    its end leaves at least one summary for the aggregation. *)
Theorem evaluate_needs_a_batch :
  (∀ num_steps w,
     (num_steps ≤ 0)%Z →
     evaluate main model loss_fn metrics num_steps w = (Raise IndexError, w)) ∧
  (∀ num_steps w r w',
     evaluate main model loss_fn metrics num_steps w = (Return r, w') →
     (1 ≤ num_steps)%Z) ∧
  (∀ num_steps w st w1,
     (1 ≤ num_steps)%Z →
     for_range (Z.to_nat num_steps)
               (loop_body main model loss_fn metrics) loop_init w
     = (Return st, w1) →
     ∃ x, first_summary (summ st) = Return x).
Proof.
  split; [|split].
  - intros n w Hn. unfold evaluate.
    replace (Z.to_nat n) with 0%nat by lia. by destruct w.
  - intros n w [m avg] w' H.
    apply evaluate_Return_positive in H. lia.
  - intros n w st w1 Hn H.
    apply for_range_Return in H as (bs & _ & Hlen & _ & Hsumm & _).
    destruct bs as [|b bs]; [simpl in Hlen; lia|].
    rewrite Hsumm. simpl. eauto.
Qed.

(** C9.  The dictionary a returning call of evaluate reports has none of
    the keys ['tp'], ['fp'], ['fn'] and has the keys ['f1score'],
    ['precision'], ['recall'] and ['loss']. *)
Theorem evaluate_reported_keys num_steps w m avg w' :
  evaluate main model loss_fn metrics num_steps w = (Return (m, avg), w') →
  (m !! "tp" = None ∧ m !! "fp" = None ∧ m !! "fn" = None) ∧
  (is_Some (m !! "f1score") ∧ is_Some (m !! "precision") ∧
   is_Some (m !! "recall") ∧ is_Some (m !! "loss")).
Proof.
  intros H.
  pose proof (evaluate_mean _ _ _ _ _ "loss" _ H loss_not_a_count
                loss_not_a_score (batch_values_loss _))
    as (_ & _ & Hloss).
  apply evaluate_Return in H as (_ & _ & Hagg & _).
  apply aggregate_Return in Hagg
    as (x & rest & mm & _ & _ & _ & p & r & f1 & _ & _ & _ & _ & _ & _ & Hm).
  split; [|rewrite Hloss; clear Hloss]; subst m;
    rewrite !reported_lookup; repeat split; eauto.
Qed.


End EvaluateTheory.

(** ** Which computations can raise AssertionError *)

Lemma Return_not_assertion {A} (a : A) : ¬ is_assertion (Return a).
Proof. by intros [msg ?]. Qed.

Lemma result_bind_not_assertion {A B} (m : result A) (f : A → result B) :
  ¬ is_assertion m → (∀ a, m = Return a → ¬ is_assertion (f a)) →
  ¬ is_assertion (m ≫= f).
Proof.
  intros Hm Hf [msg H]. apply result_bind_Raise in H as [H|(a & Ha & H)].
  - apply Hm. by exists msg.
  - apply (Hf a Ha). by exists msg.
Qed.

Lemma result_fmap_not_assertion {A B} (m : result A) (f : A → B) :
  ¬ is_assertion m → ¬ is_assertion (f <$> m).
Proof.
  intros Hm [msg H]. apply Hm. exists msg.
  destruct m; [done|]. by injection H as ->.
Qed.

Lemma mapM_not_assertion {A B} (f : A → result B) (l : list A) :
  (∀ x, ¬ is_assertion (f x)) → ¬ is_assertion (mapM f l).
Proof.
  intros Hf [msg (x & _ & Hx)%mapM_Raise]. apply (Hf x). by exists msg.
Qed.

Lemma dict_comprehension_not_assertion {V W} (g : string → result W)
    (keys : gmap string V) :
  (∀ k, ¬ is_assertion (g k)) → ¬ is_assertion (dict_comprehension g keys).
Proof.
  intros Hg [msg (k & _ & Hk)%dict_comprehension_Raise].
  apply (Hg k). by exists msg.
Qed.

Lemma getitem_not_assertion {V} (d : gmap string V) (k : string) :
  ¬ is_assertion (getitem d k).
Proof. unfold getitem. intros [msg H]. by destruct (d !! k). Qed.

Lemma delitem_not_assertion {V} (d : gmap string V) (k : string) :
  ¬ is_assertion (delitem d k).
Proof. unfold delitem. intros [msg H]. by destruct (d !! k). Qed.

Lemma truediv_not_assertion (a b : Qc) : ¬ is_assertion (truediv a b).
Proof. unfold truediv. intros [msg H]. by case_decide. Qed.

Lemma column_not_assertion (k : string) (summ : list (gmap string Qc)) :
  ¬ is_assertion (column k summ).
Proof. apply mapM_not_assertion. intros x. apply getitem_not_assertion. Qed.

Lemma f1_scores_not_assertion (tp fp fn : Qc) :
  ¬ is_assertion (f1_scores tp fp fn).
Proof.
  unfold f1_scores. case_decide; [|apply Return_not_assertion].
  repeat (apply result_bind_not_assertion;
          [apply truediv_not_assertion|intros ? _]).
  apply Return_not_assertion.
Qed.

Lemma aggregate_not_assertion (summ : list (gmap string Qc)) :
  ¬ is_assertion (aggregate summ).
Proof.
  unfold aggregate.
  apply result_bind_not_assertion; [by destruct summ; intros [? ?]|intros x _].
  apply result_bind_not_assertion.
  { apply dict_comprehension_not_assertion. intros k.
    apply result_bind_not_assertion; [apply column_not_assertion|intros ? _].
    apply truediv_not_assertion. }
  intros mm _.
  apply result_bind_not_assertion; [by destruct summ; intros [? ?]|intros x' _].
  apply result_bind_not_assertion.
  { apply dict_comprehension_not_assertion. intros k.
    apply result_fmap_not_assertion, column_not_assertion. }
  intros ms _.
  do 3 (apply result_bind_not_assertion;
        [apply getitem_not_assertion|intros ? _]).
  apply result_bind_not_assertion;
    [apply f1_scores_not_assertion|intros [[p r] f1] _].
  simpl.
  do 2 (apply result_bind_not_assertion;
        [apply delitem_not_assertion|intros ? _]).
  apply result_bind_not_assertion;
    [apply delitem_not_assertion|intros ? _; apply Return_not_assertion].
Qed.

Lemma tag_batch_not_assertion (sid2tag : gmap Z string) b
    (out : list (list Qc)) :
  ¬ is_assertion (tag_batch sid2tag b out).
Proof.
  apply mapM_not_assertion. intros [[x y] z]. unfold tag_sentence.
  apply result_bind_not_assertion; [by destruct y; intros [? ?]|intros y0 _].
  unfold sid2tag_getitem.
  apply result_bind_not_assertion; [by case_match; intros [? ?]|intros ty _].
  apply result_bind_not_assertion; [by case_match; intros [? ?]|intros tz _].
  apply Return_not_assertion.
Qed.

Lemma never_asserts_ret {A} (a : A) : never_asserts (mret a : @M Features A).
Proof. intros w. apply Return_not_assertion. Qed.

Lemma never_asserts_lift {A} (r : result A) :
  ¬ is_assertion r → never_asserts (lift r : @M Features A).
Proof. by intros Hr w. Qed.

Lemma never_asserts_bind {A B} (m : @M Features A) (f : A → @M Features B) :
  never_asserts m →
  (∀ a w w', m w = (Return a, w') → never_asserts (f a)) →
  never_asserts (m ≫= f).
Proof.
  intros Hm Hf w. specialize (Hm w). unfold mbind, M_bind.
  destruct (m w) as [[a|e] w1] eqn:Hmw.
  - by apply (Hf a w w1).
  - intros [msg H]. apply Hm. exists msg. simpl in *. by injection H as ->.
Qed.

Lemma never_asserts_perform (ev : io_event) :
  never_asserts (perform ev : @M Features unit).
Proof. intros w. apply Return_not_assertion. Qed.

Lemma never_asserts_external {A} (ev : io_event) (r : result A) :
  ¬ is_assertion r → never_asserts (external ev r : @M Features A).
Proof. by intros Hr w. Qed.

Lemma never_asserts_next : never_asserts (@next Features).
Proof. intros w. unfold next. by destruct (generator w); intros [? ?]. Qed.

Lemma never_asserts_for_range {S} (n : nat) (body : S → @M Features S) :
  (∀ st, never_asserts (body st)) → ∀ st, never_asserts (for_range n body st).
Proof.
  intros Hbody. induction n as [|n IH]; intros st; simpl.
  - apply never_asserts_ret.
  - apply never_asserts_bind; [apply Hbody|intros st' _ _ _; apply IH].
Qed.

Lemma never_asserts_evaluate main
    (model : @batch Features → list (list Qc)) loss_fn metrics num_steps :
  never_asserts (evaluate main model loss_fn metrics num_steps).
Proof.
  unfold evaluate. apply never_asserts_bind.
  { apply never_asserts_for_range. intros st. unfold loop_body.
    apply never_asserts_bind; [apply never_asserts_next|intros b _ _ _].
    apply never_asserts_bind; [|intros; apply never_asserts_ret].
    destruct main; [|apply never_asserts_ret].
    apply never_asserts_bind; [|intros; apply never_asserts_ret].
    apply never_asserts_lift, tag_batch_not_assertion. }
  intros st _ _ _. apply never_asserts_bind.
  { apply never_asserts_lift, aggregate_not_assertion. }
  intros m _ _ _. apply never_asserts_bind.
  { destruct main; [apply never_asserts_perform|apply never_asserts_ret]. }
  intros _ _ _ _. apply never_asserts_bind.
  { apply never_asserts_lift, truediv_not_assertion. }
  intros; apply never_asserts_ret.
Qed.

(** ** The script *)

Section ScriptTheory.

Context {Dataset Net : Type}.
Variable env : @environment Features Dataset Net.

Lemma startup_run (a : args) w :
  let json_path := os_path_join (model_dir a) "params.json" in
  startup env a w =
    if os_path_isfile env json_path then (Return json_path, w)
    else (Raise (AssertionError
                   ("No json configuration file found at " +:+ json_path)), w).
Proof.
  unfold startup, assert_. simpl.
  by destruct (os_path_isfile env _).
Qed.

Lemma external_Return {A} (ev : io_event) (r : result A) (x : A) w w' :
  external ev r w = (Return x, w') →
  r = Return x ∧ generator w' = generator w ∧ effects w' = effects w ++ [ev].
Proof. unfold external. by intros [= -> <-]. Qed.

Lemma perform_Return (ev : io_event) (u : unit) w w' :
  perform ev w = (Return u, w') →
  generator w' = generator w ∧ effects w' = effects w ++ [ev].
Proof. destruct u. by intros [= <-]. Qed.

Lemma script_never_asserts_with_params (a : args) :
  externals_never_assert env →
  os_path_isfile env (os_path_join (model_dir a) "params.json") = true →
  never_asserts (script env a).
Proof.
  intros (HParams & HLoader & Hload & HBert & HSBert & HLuis & Hckpt) Hfile.
  unfold script. apply never_asserts_bind.
  { intros w. rewrite startup_run, Hfile. apply Return_not_assertion. }
  intros json_path _ _ _. apply never_asserts_bind.
  { apply never_asserts_external, HParams. }
  intros params _ _ _. apply never_asserts_bind.
  { apply never_asserts_perform. }
  intros _ _ _ _. apply never_asserts_bind.
  { apply never_asserts_external, HLoader. }
  intros data_loader w1 w2 [Hdl _]%external_Return.
  apply never_asserts_bind.
  { eapply never_asserts_lift, Hload, Hdl. }
  intros data _ _ _. apply never_asserts_bind.
  { apply never_asserts_lift, getitem_not_assertion. }
  intros test_data _ _ _. apply never_asserts_bind.
  { intros w. apply Return_not_assertion. }
  intros _ _ _ _. apply never_asserts_bind.
  { apply never_asserts_lift. repeat case_bool_decide; auto. }
  intros net0 _ _ _. apply never_asserts_bind.
  { apply never_asserts_external, Hckpt. }
  intros net _ _ _. apply never_asserts_bind.
  { apply never_asserts_lift. unfold floordiv.
    case_decide; by intros [? ?]. }
  intros num_steps _ _ _. apply never_asserts_bind.
  { apply never_asserts_evaluate. }
  intros [test_metrics avg] _ _ _. apply never_asserts_perform.
Qed.

(** C7.  Provided the code called in utils, the data loader and the
    network module raises no AssertionError of its own, the script (and
    already its first lines) raises AssertionError if and only if there
    is no file params.json in the model directory: that file's
    existence is the one condition the script asserts. *)
Theorem script_asserts_only_params_json (a : args) w :
  externals_never_assert env →
  let json_path := os_path_join (model_dir a) "params.json" in
  (is_assertion (startup env a w).1 ↔ os_path_isfile env json_path = false) ∧
  (is_assertion (script env a w).1 ↔ os_path_isfile env json_path = false).
Proof.
  intros Hext json_path. split.
  - rewrite startup_run. fold json_path.
    destruct (os_path_isfile env json_path); split; try done.
    + by intros [? ?].
    + intros _. by eexists.
  - destruct (os_path_isfile env json_path) eqn:Hfile; split; try done.
    + intros H. exfalso.
      by apply (script_never_asserts_with_params a Hext Hfile w).
    + intros _. unfold script, mbind, M_bind.
      rewrite startup_run. fold json_path. rewrite Hfile. by eexists.
Qed.

Lemma os_path_join_in_directory (dir name : string) :
  startswith_sep name = false →
  in_directory dir name (os_path_join dir name).
Proof.
  intros Hname. unfold in_directory, os_path_join, separator.
  rewrite Hname. by destruct (bool_decide (dir = EmptyString) || endswith_sep dir).
Qed.

Lemma startswith_sep_app (s suffix : string) :
  startswith_sep s = false → startswith_sep suffix = false →
  startswith_sep (s +:+ suffix) = false.
Proof. by destruct s. Qed.

(** C6.  A run of the script that ends without an exception, for a
    [restore_file] that is a name and not an absolute path, has made
    these file system calls, in this order: it has read params.json,
    set up the log, loaded the data set, read the checkpoint from
    [<restore_file>.pth.tar] in the model directory, written the tagged
    sentences, joined by newlines, to [output_tagged_sentences.txt] in
    the model directory, and written the dictionary evaluate returned
    to [metrics_test_<restore_file>.json] in the model directory. *)
Theorem script_file_names (a : args) w w' :
  script env a w = (Return (), w') →
  startswith_sep (restore_file a) = false →
  ∃ checkpoint ofname save_path net0 net tags num_steps wa wb
    test_metrics avg lines,
    in_directory (model_dir a) (restore_file a +:+ ".pth.tar") checkpoint ∧
    in_directory (model_dir a) "output_tagged_sentences.txt" ofname ∧
    in_directory (model_dir a)
                 ("metrics_test_" +:+ restore_file a +:+ ".json") save_path ∧
    utils_load_checkpoint env checkpoint net0 = Return net ∧
    evaluate (Some {| g_args := a; g_sid2tag := tags |})
             (net_forward env net) (net_loss_fn env) (net_metrics env)
             num_steps wa = (Return (test_metrics, avg), wb) ∧
    tag_batches tags (net_forward env net) (batches_fetched num_steps wa)
    = Return lines ∧
    effects w' = effects w ++
      [read_params (os_path_join (model_dir a) "params.json");
       set_logger (os_path_join (model_dir a) "evaluate.log");
       load_dataset (data_dir a);
       load_checkpoint checkpoint;
       write_text ofname (str_join newline lines);
       save_dict_to_json test_metrics save_path].
Proof.
  intros H Hname. unfold script in H.
  apply M_bind_Return in H as (json_path & w1 & Hstart & H).
  rewrite startup_run in Hstart.
  destruct (os_path_isfile env _); [|discriminate].
  injection Hstart as <- <-.
  apply M_bind_Return in H as (params0 & w2 & (_ & _ & He2)%external_Return & H).
  apply M_bind_Return in H as ([] & w3 & (_ & He3)%perform_Return & H).
  apply M_bind_Return in H as (dl & w4 & (_ & _ & He4)%external_Return & H).
  apply M_bind_Return in H as (data & w5 & [_ ->]%lift_Return & H).
  apply M_bind_Return in H as (test_data & w6 & [_ ->]%lift_Return & H).
  apply M_bind_Return in H as ([] & w7 & Hset & H).
  injection Hset as <-.
  apply M_bind_Return in H as (net0 & w8 & [_ ->]%lift_Return & H).
  apply M_bind_Return in H as (net & w9 & (Hckpt & _ & He9)%external_Return & H).
  apply M_bind_Return in H as (num_steps & w10 & [_ ->]%lift_Return & H).
  apply M_bind_Return in H as ([test_metrics avg] & w11 & Heval & H).
  apply perform_Return in H as (_ & He12).
  pose proof Heval as Hrun.
  apply evaluate_Return in Hrun
    as (_ & _ & _ & _ & st & wl & _ & _ & _ & (lines & Hlines & Htagged) & He11).
  simpl in Htagged, He9, He11.
  exists (os_path_join (model_dir a) (restore_file a +:+ ".pth.tar")),
         (os_path_join (model_dir a) "output_tagged_sentences.txt"),
         (os_path_join (model_dir a)
                       ("metrics_test_" +:+ restore_file a +:+ ".json")),
         net0, net, (sid2tag dl), num_steps.
  eexists _, w11, test_metrics, avg, lines.
  split; [|split; [|split; [|split; [|split; [|split]]]]].
  - apply os_path_join_in_directory. by apply startswith_sep_app.
  - by apply os_path_join_in_directory.
  - by apply os_path_join_in_directory.
  - exact Hckpt.
  - exact Heval.
  - exact Hlines.
  - rewrite He12, He11, He9, He4, He3, He2, Htagged.
    by rewrite <- !app_assoc.
Qed.

End ScriptTheory.

End Theory.

(** * The statements at work on the small data set *)

Lemma run0_returns :
  evaluate None Demo.model Demo.loss_fn Demo.metrics 2 Demo.w0
  = (Return Demo.run0.1, Demo.run0.2).
Proof. vm_compute. reflexivity. Qed.

Lemma run2_returns :
  evaluate None Demo.model Demo.loss_fn Demo.metrics 1 Demo.w2
  = (Return Demo.run2.1, Demo.run2.2).
Proof. vm_compute. reflexivity. Qed.

Lemma run2p_returns :
  evaluate None Demo.model Demo.loss_fn Demo.metrics_with_precision 1 Demo.w2
  = (Return Demo.run2p.1, Demo.run2p.2).
Proof. vm_compute. reflexivity. Qed.

Lemma Qc_eq_by_computation (x y : Qc) : Qeq_bool x y = true → x = y.
Proof. intros H. by apply Qc_is_canon, Qeq_bool_iff. Qed.

Lemma run0_totals :
  Demo.total Demo.tp 2 Demo.w0 = 1 ∧
  Demo.total Demo.fp 2 Demo.w0 = 1 ∧
  Demo.total Demo.fn 2 Demo.w0 = 1.
Proof. repeat split; apply Qc_eq_by_computation; vm_compute; reflexivity. Qed.

Lemma run2_total_tp : Demo.total Demo.tp 1 Demo.w2 = 0.
Proof. apply Qc_eq_by_computation. vm_compute. reflexivity. Qed.

Lemma evaluate_scores_at_fixed_counts_witness :
  (Demo.run2.1.1 !! "precision" = Some 0 ∧
   Demo.run2.1.1 !! "recall" = Some 0 ∧
   Demo.run2.1.1 !! "f1score" = Some 0) ∧
  (Demo.run0.1.1 !! "precision" = Some (Q2Qc (1 # 2)) ∧
   Demo.run0.1.1 !! "recall" = Some (Q2Qc (1 # 2)) ∧
   Demo.run0.1.1 !! "f1score" = Some (Q2Qc (1 # 2))).
Proof.
  split.
  - apply (evaluate_scores_at_fixed_counts None Demo.model Demo.loss_fn
             Demo.metrics 1 Demo.w2 Demo.run2.1.1 Demo.run2.1.2 Demo.run2.2
             Demo.tp Demo.fp Demo.fn run2_returns
             eq_refl eq_refl eq_refl).
    exact run2_total_tp.
  - destruct run0_totals as (Htp & Hfp & Hfn).
    by apply (evaluate_scores_at_fixed_counts None Demo.model Demo.loss_fn
                Demo.metrics 2 Demo.w0 Demo.run0.1.1 Demo.run0.1.2 Demo.run0.2
                Demo.tp Demo.fp Demo.fn run0_returns
                eq_refl eq_refl eq_refl).
Defined.

Lemma evaluate_f1_is_harmonic_mean_witness :
  let tp := Demo.total Demo.tp 2 Demo.w0 in
  let fp := Demo.total Demo.fp 2 Demo.w0 in
  let fn := Demo.total Demo.fn 2 Demo.w0 in
  let p := tp / (tp + fp) in
  let r := tp / (tp + fn) in
  Demo.run0.1.1 !! "precision" = Some p ∧
  Demo.run0.1.1 !! "recall" = Some r ∧
  Demo.run0.1.1 !! "f1score" = Some (2 * p * r / (p + r)).
Proof.
  apply (evaluate_f1_is_harmonic_mean None Demo.model Demo.loss_fn
           Demo.metrics 2 Demo.w0 Demo.run0.1.1 Demo.run0.1.2 Demo.run0.2
           Demo.tp Demo.fp Demo.fn run0_returns eq_refl eq_refl eq_refl).
  destruct run0_totals as (Htp & _). unfold Demo.total in Htp.
  rewrite Htp. done.
Defined.

Lemma demo_counts_nonnegative :
  counts_nonnegative
    (summary_of Demo.model Demo.loss_fn Demo.metrics <$> [Demo.b1; Demo.b2]).
Proof.
  intros x k v Hx Hk Hv.
  assert (Qle_bool 0 v = true) as H; [|by apply Qle_bool_iff in H].
  rewrite !fmap_cons, fmap_nil in Hx.
  rewrite !elem_of_cons, elem_of_nil in Hx.
  rewrite !elem_of_cons, elem_of_nil in Hk.
  destruct Hx as [->|[->|[]]]; destruct Hk as [->|[->|[->|[]]]];
    vm_compute in Hv; by injection Hv as <-.
Qed.


Lemma accuracy_not_a_count : "accuracy" ∉ ["tp"; "fp"; "fn"].
Proof. apply (bool_decide_unpack _). vm_compute. exact I. Qed.

Lemma accuracy_not_a_score : "accuracy" ∉ ["f1score"; "precision"; "recall"].
Proof. apply (bool_decide_unpack _). vm_compute. exact I. Qed.

Lemma evaluate_reports_means_witness :
  Demo.run0.1.1 !! "accuracy"
  = Some (Np.sum (metric_values Demo.model Demo.accuracy [Demo.b1; Demo.b2])
          / of_nat 2).
Proof.
  apply (evaluate_reports_means None Demo.model Demo.loss_fn Demo.metrics
           2 Demo.w0 Demo.run0.1.1 Demo.run0.1.2 Demo.run0.2 "accuracy"
           (metric_values Demo.model Demo.accuracy [Demo.b1; Demo.b2])
           run0_returns accuracy_not_a_count accuracy_not_a_score).
  by apply batch_values_metric.
Defined.

(** C4 as first stated, with only ['tp'], ['fp'] and ['fn'] excepted, does
    not hold.  Take the metrics of [Demo] and one more, named
    ['precision'], whose value is 1 on every batch, and call evaluate for
    one step on the batch [Demo.b2].  The network scores the two sentences
    1 and 1/2, the labels are 0 and 1: tp = 0, fp = 1, fn = 1.  The mean of
    the ['precision'] column is 1; line 84 then stores p = 0.0 under that
    key, and 0 is what the call reports. *)
Lemma evaluate_mean_overwritten_by_score :
  (evaluate None Demo.model Demo.loss_fn Demo.metrics_with_precision 1 Demo.w2
   = (Return Demo.run2p.1, Demo.run2p.2) ∧
   batch_values Demo.model Demo.loss_fn Demo.metrics_with_precision
                "precision" (batches_fetched 1 Demo.w2) [1] ∧
   Demo.run2p.1.1 !! "precision" = Some 0) ∧
  ¬ (∀ (main : option script_globals) (model : @batch unit → list (list Qc))
       (loss_fn : list (list Qc) → list Qc → Qc)
       (metrics : gmap string (list (list Qc) → list Qc → Qc))
       (num_steps : Z) (w : world) (m : gmap string Qc) (avg : Qc) (w' : world)
       (k : string) (vs : list Qc),
       evaluate main model loss_fn metrics num_steps w = (Return (m, avg), w') →
       k ∉ ["tp"; "fp"; "fn"] →
       batch_values model loss_fn metrics k (batches_fetched num_steps w) vs →
       m !! k = Some (Np.sum vs / of_nat (Z.to_nat num_steps))).
Proof.
  assert (batch_values Demo.model Demo.loss_fn Demo.metrics_with_precision
            "precision" (batches_fetched 1 Demo.w2) [1]) as Hvs
    by repeat constructor.
  split.
  - split; [exact run2p_returns|]. split; [exact Hvs|].
    vm_compute. reflexivity.
  - intros H.
    assert ("precision" ∉ ["tp"; "fp"; "fn"]) as Hk
      by (apply (bool_decide_unpack _); vm_compute; exact I).
    specialize (H None Demo.model Demo.loss_fn Demo.metrics_with_precision
                  1%Z Demo.w2 Demo.run2p.1.1 Demo.run2p.1.2 Demo.run2p.2
                  "precision" [1] run2p_returns Hk Hvs).
    vm_compute in H. discriminate H.
Qed.

Lemma evaluate_consumes_num_steps_witness :
  generator Demo.w0 = [Demo.b1; Demo.b2] ++ generator Demo.run0.2 ∧
  Z.of_nat (length [Demo.b1; Demo.b2]) = 2%Z.
Proof.
  destruct (evaluate_consumes_num_steps None Demo.model Demo.loss_fn
              Demo.metrics 2 Demo.w0 Demo.run0.1.1 Demo.run0.1.2 Demo.run0.2
              run0_returns) as (Hgen & Hlen & _).
  split; [exact Hgen|exact Hlen].
Defined.

Lemma evaluate_needs_a_batch_witness :
  evaluate None Demo.model Demo.loss_fn Demo.metrics 0 Demo.w0
  = (Raise IndexError, Demo.w0) ∧ (1 ≤ 2)%Z.
Proof.
  destruct (evaluate_needs_a_batch None Demo.model Demo.loss_fn Demo.metrics)
    as (Hzero & Hpos & _).
  split.
  - apply Hzero. lia.
  - exact (Hpos 2%Z Demo.w0 Demo.run0.1 Demo.run0.2 run0_returns).
Defined.

Lemma evaluate_reported_keys_witness :
  (Demo.run0.1.1 !! "tp" = None ∧ Demo.run0.1.1 !! "fp" = None ∧
   Demo.run0.1.1 !! "fn" = None) ∧
  (is_Some (Demo.run0.1.1 !! "f1score") ∧
   is_Some (Demo.run0.1.1 !! "precision") ∧
   is_Some (Demo.run0.1.1 !! "recall") ∧
   is_Some (Demo.run0.1.1 !! "loss")).
Proof.
  exact (evaluate_reported_keys None Demo.model Demo.loss_fn Demo.metrics
           2 Demo.w0 Demo.run0.1.1 Demo.run0.1.2 Demo.run0.2 run0_returns).
Defined.


Lemma demo_externals_never_assert : externals_never_assert Demo.env.
Proof.
  repeat split; try (intros; apply Return_not_assertion).
  intros dir params dl names dir' [= <-]. apply Return_not_assertion.
Qed.

Lemma script_asserts_only_params_json_witness :
  is_assertion (script Demo.env Demo.elsewhere Demo.fresh).1 ∧
  ¬ is_assertion (script Demo.env default_args Demo.fresh).1.
Proof.
  split.
  - apply (script_asserts_only_params_json Demo.env Demo.elsewhere Demo.fresh
             demo_externals_never_assert).
    reflexivity.
  - intros H.
    apply (script_asserts_only_params_json Demo.env default_args Demo.fresh
             demo_externals_never_assert) in H.
    discriminate H.
Defined.

Lemma script_returns :
  script Demo.env default_args Demo.fresh = (Return (), Demo.script_run).
Proof. vm_compute. reflexivity. Qed.

Lemma script_file_names_witness :
  ∃ test_metrics lines,
    effects Demo.script_run =
      [read_params "experiments/base_model/params.json";
       set_logger "experiments/base_model/evaluate.log";
       load_dataset "data/small";
       load_checkpoint "experiments/base_model/best.pth.tar";
       write_text "experiments/base_model/output_tagged_sentences.txt"
                  (str_join newline lines);
       save_dict_to_json test_metrics
                         "experiments/base_model/metrics_test_best.json"].
Proof.
  destruct (script_file_names Demo.env default_args Demo.fresh Demo.script_run
              script_returns eq_refl)
    as (checkpoint & ofname & save_path & net0 & net & tags & num_steps & wa
        & wb & test_metrics & avg & lines & -> & -> & -> & _ & _ & _ & Heff).
  exists test_metrics, lines. exact Heff.
Defined.

(** * Further properties *)

(** ** Arithmetic of the scores *)






Section FurtherTheory.

Context {Features : Type}.
Implicit Types (w : @world Features) (b : @batch Features).

(** ** Outcomes that raise *)


(** ** The file system calls a computation adds *)








Section FurtherEvaluate.

Variable main : option (@script_globals).
Variable model : @batch Features → list (list Qc).
Variable loss_fn : list (list Qc) → list Qc → Qc.
Variable metrics : gmap string (list (list Qc) → list Qc → Qc).



End FurtherEvaluate.



(** ** A generator that runs out *)

Lemma for_range_StopIteration
    (model : @batch Features → list (list Qc)) loss_fn metrics n : ∀ st w,
  (length (generator w) < n)%nat →
  for_range n (loop_body None model loss_fn metrics) st w
  = (Raise StopIteration, {| generator := []; effects := effects w |}).
Proof.
  induction n as [|n IH]; intros st [gen eff] Hlen; simpl in Hlen; [lia|].
  simpl. unfold mbind at 1, M_bind at 1.
  destruct gen as [|b rest].
  - done.
  - unfold loop_body at 1. unfold mbind, M_bind, next. simpl.
    fold (@mbind (@M Features) _).
    rewrite IH; [done|]. simpl in *. lia.
Qed.

(** X7.  Called from another module with more steps than the generator
    has batches left, evaluate raises StopIteration, and the generator is
    left empty. *)
Theorem evaluate_StopIteration
    (model : @batch Features → list (list Qc)) loss_fn metrics num_steps w :
  (length (generator w) < Z.to_nat num_steps)%nat →
  evaluate None model loss_fn metrics num_steps w
  = (Raise StopIteration, {| generator := []; effects := effects w |}).
Proof.
  intros Hlen. unfold evaluate. unfold mbind at 1, M_bind at 1.
  by rewrite for_range_StopIteration.
Qed.

(** ** A count that is missing from the metrics *)

Section MissingCount.

Variable model : @batch Features → list (list Qc).
Variable loss_fn : list (list Qc) → list Qc → Qc.
Variable metrics : gmap string (list (list Qc) → list Qc → Qc).

(** The two comprehensions of lines 72-73 go through on the summaries of
    at least one batch, and the dictionary of sums has the keys of the
    summaries. *)
Lemma aggregate_comprehensions b (bs : list batch) :
  let summ := summary_of model loss_fn metrics <$> b :: bs in
  ∃ mm ms,
    dict_comprehension (λ metric, col ← column metric summ; Np.mean col)
                       (summary_of model loss_fn metrics b) = Return mm ∧
    dict_comprehension (λ metric, Np.sum <$> column metric summ)
                       (summary_of model loss_fn metrics b) = Return ms ∧
    ∀ k, k ≠ "loss" → is_Some (ms !! k) ↔ is_Some (metrics !! k).
Proof.
  intros summ.
  destruct (dict_comprehension_returns
              (λ metric, col ← column metric summ; Np.mean col)
              (summary_of model loss_fn metrics b)) as [mm Hmm].
  { intros k Hk.
    destruct (column_summaries_returns model loss_fn metrics b k (b :: bs) Hk)
      as (vs & Hvs & Hlen).
    fold summ in Hvs. rewrite Hvs. simpl. unfold Np.mean, truediv.
    case_decide as E; [|by eexists].
    apply of_nat_zero in E. rewrite Hlen in E. done. }
  destruct (dict_comprehension_returns
              (λ metric, Np.sum <$> column metric summ)
              (summary_of model loss_fn metrics b)) as [ms Hms].
  { intros k Hk.
    destruct (column_summaries_returns model loss_fn metrics b k (b :: bs) Hk)
      as (vs & Hvs & _).
    fold summ in Hvs. rewrite Hvs. by eexists. }
  exists mm, ms. split; [done|]. split; [done|]. intros k Hk.
  pose proof (dict_comprehension_Return _ _ _ Hms k) as H.
  unfold summary_of in H. rewrite lookup_insert_ne, lookup_fmap in H by done.
  destruct (metrics !! k) as [f|]; simpl in H.
  - destruct H as (v & _ & ->). split; eauto.
  - rewrite H. split; by intros [? ?].
Qed.

Lemma aggregate_missing_count b (bs : list batch) (k : string) :
  first_missing_count metrics = Some k →
  aggregate (summary_of model loss_fn metrics <$> b :: bs)
  = Raise (KeyError (key_str k)).
Proof.
  intros Hk.
  destruct (aggregate_comprehensions b bs) as (mm & ms & Hmm & Hms & Hkeys).
  assert (first_summary (summary_of model loss_fn metrics <$> b :: bs)
          = Return (summary_of model loss_fn metrics b)) as Hfirst by done.
  unfold aggregate.
  rewrite Hfirst, result_bind_of_Return, Hmm, !result_bind_of_Return.
  rewrite Hms, result_bind_of_Return.
  assert (∀ k', k' ≠ "loss" → metrics !! k' = None →
                getitem ms k' = Raise (KeyError (key_str k'))) as Hnone.
  { intros k' Hne Hk'. unfold getitem.
    destruct (ms !! k') eqn:E; [|done].
    assert (is_Some (metrics !! k')) as [? ?] by (apply Hkeys; eauto).
    congruence. }
  assert (∀ k', k' ≠ "loss" → metrics !! k' ≠ None →
                ∃ v, getitem ms k' = Return v) as Hsome.
  { intros k' Hne Hk'. unfold getitem.
    destruct (proj2 (Hkeys k' Hne)) as [v ->]; [|by eexists].
    by destruct (metrics !! k'). }
  unfold first_missing_count in Hk. rewrite !filter_cons, filter_nil in Hk.
  destruct (decide (metrics !! "tp" = None)) as [Htp|Htp].
  { injection Hk as <-. by rewrite (Hnone "tp" ltac:(done) Htp). }
  destruct (Hsome "tp" ltac:(done) Htp) as [tp ->]. rewrite result_bind_of_Return.
  destruct (decide (metrics !! "fp" = None)) as [Hfp|Hfp].
  { injection Hk as <-. by rewrite (Hnone "fp" ltac:(done) Hfp). }
  destruct (Hsome "fp" ltac:(done) Hfp) as [fp ->]. rewrite result_bind_of_Return.
  destruct (decide (metrics !! "fn" = None)) as [Hfn|Hfn]; [|done].
  injection Hk as <-. by rewrite (Hnone "fn" ltac:(done) Hfn).
Qed.

(** X8.  When the metrics lack one of ['tp'], ['fp'], ['fn'], a call of
    evaluate whose loop runs to its end raises KeyError for the first of
    the three, in that order, that is missing; it has taken its
    [num_steps] batches from the generator and made no file system
    call. *)
Theorem evaluate_missing_count main num_steps w (k : string) :
  (1 ≤ num_steps)%Z →
  (Z.to_nat num_steps ≤ length (generator w))%nat →
  (∀ g, main = Some g →
     Forall (λ b, ∃ lines, tag_batch (g_sid2tag g) b (model b) = Return lines)
            (batches_fetched num_steps w)) →
  first_missing_count metrics = Some k →
  evaluate main model loss_fn metrics num_steps w
  = (Raise (KeyError (key_str k)),
     {| generator := drop (Z.to_nat num_steps) (generator w);
        effects := effects w |}).
Proof.
  intros Hpos Hlen Htag Hk.
  destruct (for_range_returns main model loss_fn metrics (Z.to_nat num_steps)
              loop_init w Hlen Htag) as (st & w1 & Hrun).
  pose proof Hrun as Hloop.
  apply for_range_Return in Hloop as (bs & Hgen & Hbs & Heff & Hsumm & _).
  simpl in Hsumm.
  assert (w1 = {| generator := drop (Z.to_nat num_steps) (generator w);
                  effects := effects w |}) as Hw1.
  { destruct w1 as [gen1 eff1]. simpl in *. subst eff1. f_equal.
    rewrite Hgen, <- Hbs. by rewrite drop_app_length. }
  unfold evaluate. unfold mbind at 1, M_bind at 1. rewrite Hrun.
  unfold mbind at 1, M_bind at 1, lift. rewrite Hsumm.
  destruct bs as [|b bs]; [simpl in Hbs; lia|].
  by rewrite (aggregate_missing_count b bs k Hk), Hw1.
Qed.

End MissingCount.

(** ** What the result depends on *)

Section Dependence.

Variable model : @batch Features → list (list Qc).
Variable loss_fn : list (list Qc) → list Qc → Qc.
Variable metrics : gmap string (list (list Qc) → list Qc → Qc).






End Dependence.

(** ** The reported dictionary *)

Section Reported.

Variable main : option (@script_globals).
Variable model : @batch Features → list (list Qc).
Variable loss_fn : list (list Qc) → list Qc → Qc.
Variable metrics : gmap string (list (list Qc) → list Qc → Qc).

Lemma elem_of_count_keys (k : string) :
  k ∈ ({["tp"; "fp"; "fn"]} : gset string) ↔ k ∈ ["tp"; "fp"; "fn"].
Proof.
  rewrite !elem_of_union, !elem_of_singleton, !elem_of_cons, elem_of_nil.
  tauto.
Qed.

Lemma elem_of_derived_keys (k : string) :
  k ∈ ({["loss"; "f1score"; "precision"; "recall"]} : gset string) ↔
  k = "loss" ∨ k = "f1score" ∨ k = "precision" ∨ k = "recall".
Proof. rewrite !elem_of_union, !elem_of_singleton. tauto. Qed.

(** X4.  The dictionary a call of evaluate returns has exactly these keys:
    ['loss'], the three scores and the names of the metrics, less the
    three counts. *)
Theorem evaluate_reports_exactly_these_keys num_steps w m avg w' :
  evaluate main model loss_fn metrics num_steps w = (Return (m, avg), w') →
  dom m = reported_keys metrics.
Proof.
  intros H.
  apply evaluate_Return in H as (_ & _ & Hagg & _).
  apply aggregate_Return in Hagg
    as (x & rest & mm & _ & _ & _ & p & r & f1 & Hsumm & Hmm & _ & _ & _ & _ & ->).
  assert (∃ b, x = summary_of model loss_fn metrics b) as [b ->].
  { destruct (batches_fetched num_steps w) as [|b bs]; [done|].
    injection Hsumm as <- _. by exists b. }
  apply set_eq. intros k. rewrite elem_of_dom, reported_lookup.
  pose proof (dict_comprehension_Return _ _ _ Hmm k) as Hk.
  unfold reported_keys.
  rewrite elem_of_difference, elem_of_union, elem_of_dom.
  rewrite elem_of_count_keys, elem_of_derived_keys.
  destruct (decide (k ∈ ["tp"; "fp"; "fn"])) as [Hin|Hout].
  { rewrite bool_decide_eq_true_2 by done.
    split; [by intros [? ?]|by intros [_ []]]. }
  rewrite bool_decide_eq_false_2 by done.
  repeat case_bool_decide; subst.
  - split; [intros _; split; [auto|done]|eauto].
  - split; [intros _; split; [auto|done]|eauto].
  - split; [intros _; split; [auto|done]|eauto].
  - unfold summary_of in Hk. destruct (decide (k = "loss")) as [->|Hloss].
    + rewrite lookup_insert_eq in Hk. destruct Hk as (v & _ & ->).
      split; [intros _; split; [auto|done]|eauto].
    + rewrite lookup_insert_ne, lookup_fmap in Hk by done.
      destruct (metrics !! k) as [f|]; simpl in Hk.
      * destruct Hk as (v & _ & ->). split; [intros _; split; eauto|eauto].
      * rewrite Hk. split; [by intros [? ?]|].
        intros [[Hin|[? ?]] _]; [|done].
        destruct Hin as [?|[?|[?|?]]]; done.
Qed.





End Reported.

(** ** The tagged sentences *)

Lemma zip3_lookup {A B C} (a : list A) (c : list C) : ∀ (l : list B) i x y z,
  zip3 a l c !! i = Some (x, y, z) ↔
  a !! i = Some x ∧ l !! i = Some y ∧ c !! i = Some z.
Proof.
  revert c. induction a as [|x' a IH]; intros [|z' c] [|y' l] [|i] x y z;
    simpl; try (split; [done|by intros (? & ? & ?)]).
  - split; [by intros [= -> -> ->]|by intros ([= ->] & [= ->] & [= ->])].
  - apply IH.
Qed.

Lemma zip3_length {A B C} (a : list A) (c : list C) : ∀ l : list B,
  length (zip3 a l c) = (length a `min` (length l `min` length c))%nat.
Proof.
  revert c. induction a as [|x a IH]; intros [|z c] [|y l]; simpl; try lia.
  rewrite IH. lia.
Qed.

Lemma tag_sentence_tagged_line (sid2tag : gmap Z string)
    (x : list string) (row : list Qc) (z : Qc) (line : string) :
  tag_sentence sid2tag x (greater_half row) z = Return line ↔
  tagged_line sid2tag x row z = Some line.
Proof.
  unfold tag_sentence, tagged_line, predicted_id, sid2tag_getitem.
  destruct row as [|v row]; simpl; [done|].
  destruct (bool_decide (Q2Qc (1 # 2) < v)); simpl.
  all: destruct (sid2tag !! int z) as [tz|]; simpl.
  all: destruct (sid2tag !! _) as [ty|]; simpl.
  all: split; intros [=]; by subst.
Qed.

Lemma tag_batch_Return (sid2tag : gmap Z string) b (out : list (list Qc))
    (lines : list string) :
  tag_batch sid2tag b out = Return lines ↔
  length lines
  = (length (sentences b) `min` (length out `min` length (slabels b)))%nat ∧
  ∀ i x row z,
    sentences b !! i = Some x → out !! i = Some row →
    slabels b !! i = Some z →
    ∃ line, lines !! i = Some line ∧ tagged_line sid2tag x row z = Some line.
Proof.
  unfold tag_batch. rewrite mapM_Return. split.
  - intros H. split.
    + apply Forall2_length in H. rewrite <- H, zip3_length.
      by rewrite length_fmap.
    + intros i x row z Hx Hrow Hz.
      assert (zip3 (sentences b) (greater_half <$> out) (slabels b) !! i
              = Some (x, greater_half row, z)) as Hi.
      { apply zip3_lookup. by rewrite list_lookup_fmap, Hrow. }
      destruct (Forall2_lookup_l _ _ _ _ _ H Hi) as (line & Hline & Htag).
      exists line. split; [done|]. by apply tag_sentence_tagged_line.
  - intros [Hlen Hlines]. apply Forall2_same_length_lookup. split.
    + rewrite zip3_length, length_fmap. lia.
    + intros i [[x y] z] line Hi Hline.
      apply zip3_lookup in Hi as (Hx & Hy & Hz).
      rewrite list_lookup_fmap in Hy.
      destruct (out !! i) as [row|] eqn:Hrow; [|done]. injection Hy as <-.
      destruct (Hlines i x row z Hx Hrow Hz) as (line' & Hline' & Htag).
      apply tag_sentence_tagged_line. congruence.
Qed.

(** X11.  When the tagging of a batch returns, it gives one line for each
    position that the sentences, the rows of scores and the labels all
    have (what is beyond the shortest of the three is dropped), and the
    line at a position holds the words joined by blanks, then the tag of
    the class predicted from the first score of the row (1 above one
    half, else 0), then the tag of the label cut to an integer. *)
Theorem tag_batch_lines (sid2tag : gmap Z string) b (out : list (list Qc))
    (lines : list string) :
  tag_batch sid2tag b out = Return lines →
  length lines
  = (length (sentences b) `min` (length out `min` length (slabels b)))%nat ∧
  ∀ i x row z,
    sentences b !! i = Some x → out !! i = Some row →
    slabels b !! i = Some z →
    ∃ line, lines !! i = Some line ∧ tagged_line sid2tag x row z = Some line.
Proof.
  intros H. apply tag_batch_Return in H as [Hlen Hlines].
  split; [exact Hlen|]. intros i x row z Hx Hrow Hz.
  destruct (Hlines i x row z Hx Hrow Hz) as (line & Hline & Htag).
  by exists line.
Qed.

(** X12.  The tagging of a batch returns exactly when every position kept
    can be tagged: its row of scores is not empty, and the tags of the
    predicted class and of the label are known.  Otherwise it raises (an
    IndexError or a KeyError). *)
Theorem tag_batch_returns_iff (sid2tag : gmap Z string) b
    (out : list (list Qc)) :
  (∃ lines, tag_batch sid2tag b out = Return lines) ↔
  ∀ i x row z,
    sentences b !! i = Some x → out !! i = Some row →
    slabels b !! i = Some z →
    is_Some (tagged_line sid2tag x row z).
Proof.
  split.
  - intros [lines [_ Hlines]%tag_batch_Return] i x row z Hx Hrow Hz.
    destruct (Hlines i x row z Hx Hrow Hz) as (line & _ & ->). eauto.
  - intros Hall. apply mapM_returns. intros [[x y] z] Hin.
    apply list_elem_of_lookup in Hin as [i Hi].
    apply zip3_lookup in Hi as (Hx & Hy & Hz).
    rewrite list_lookup_fmap in Hy.
    destruct (out !! i) as [row|] eqn:Hrow; [|done]. injection Hy as <-.
    destruct (Hall i x row z Hx Hrow Hz) as [line Hline].
    exists line. by apply tag_sentence_tagged_line.
Qed.

(** ** The script, step by step *)

Section FurtherScript.

Context {Dataset Net : Type}.
Variable env : @environment Features Dataset Net.

Lemma M_bind_of_Return {A B} (m : @M Features A) (f : A → @M Features B)
    w w1 (a : A) :
  m w = (Return a, w1) → (m ≫= f) w = f a w1.
Proof. intros H. unfold mbind, M_bind. by rewrite H. Qed.

(** Once everything is loaded, the script is at line 152 with the test
    iterator in place. *)
Lemma script_when_loaded (a : args) params dl test_data net w :
  loads env a params dl test_data net →
  script env a w
  = evaluate_and_save env a params dl net (loaded a params dl test_data w).
Proof.
  intros (Hfile & params0 & data & net0 & HP & HD & HL & Ht & -> & Hnet & Hck).
  unfold script.
  erewrite M_bind_of_Return; [|by rewrite startup_run, Hfile].
  erewrite M_bind_of_Return; [|by unfold external, perform, lift; rewrite HP].
  erewrite M_bind_of_Return; [|done].
  erewrite M_bind_of_Return; [|by unfold external, perform, lift; rewrite HD].
  erewrite M_bind_of_Return; [|by unfold lift; rewrite HL].
  erewrite M_bind_of_Return;
    [|by unfold lift, getitem; rewrite Ht].
  erewrite M_bind_of_Return; [|done].
  erewrite M_bind_of_Return; [|by unfold lift; rewrite Hnet].
  erewrite M_bind_of_Return; [|by unfold external, perform, lift; rewrite Hck].
  unfold evaluate_and_save, loaded. simpl. by rewrite <- !app_assoc.
Qed.

(** X13.  A test set too small for one step stops the script: when
    everything loads and [test_size + 1] is less than [batch_size], the
    quotient of line 152 is 0, evaluate raises IndexError at [summ[0]],
    and the script ends there, with the checkpoint read and neither the
    tagged sentences nor the metrics written. *)
Theorem script_test_set_too_small (a : args) params dl test_data net w :
  loads env a params dl test_data net →
  (0 ≤ dataset_size env test_data + 1 < batch_size params)%Z →
  script env a w = (Raise IndexError, loaded a params dl test_data w).
Proof.
  intros Hloads Hsize. rewrite (script_when_loaded _ _ _ _ _ _ Hloads).
  assert (test_size params = dataset_size env test_data) as Hts.
  { destruct Hloads as (_ & ? & ? & ? & _ & _ & _ & _ & -> & _). done. }
  unfold evaluate_and_save.
  erewrite M_bind_of_Return; last first.
  { unfold lift, floordiv. rewrite Hts.
    rewrite decide_False by lia. by rewrite Z.div_small. }
  unfold evaluate. simpl. by destruct (loaded a params dl test_data w).
Qed.

(** X14.  A [batch_size] of 0 stops the script at line 152 with
    ZeroDivisionError, with the checkpoint read and nothing written. *)
Theorem script_batch_size_zero (a : args) params dl test_data net w :
  loads env a params dl test_data net →
  batch_size params = 0%Z →
  script env a w = (Raise ZeroDivisionError, loaded a params dl test_data w).
Proof.
  intros Hloads Hzero. rewrite (script_when_loaded _ _ _ _ _ _ Hloads).
  unfold evaluate_and_save, mbind, M_bind, lift, floordiv.
  by rewrite Hzero.
Qed.

(** X19.  A run of the script that ends normally has read exactly
    [(test_size + 1) // batch_size] batches from the test iterator, at
    least one, and left the others in it. *)
Theorem script_reads_quotient_of_batches (a : args) params dl test_data net
    w w' :
  loads env a params dl test_data net →
  script env a w = (Return (), w') →
  let n := ((dataset_size env test_data + 1) `div` batch_size params)%Z in
  (1 ≤ n)%Z ∧
  generator w' = drop (Z.to_nat n) (data_iterator dl test_data params).
Proof.
  intros Hloads H n.
  assert (test_size params = dataset_size env test_data) as Hts.
  { destruct Hloads as (_ & ? & ? & ? & _ & _ & _ & _ & -> & _). done. }
  rewrite (script_when_loaded _ _ _ _ _ _ Hloads) in H.
  unfold evaluate_and_save in H.
  apply M_bind_Return in H as (num_steps & w1 & [Hdiv ->]%lift_Return & H).
  unfold floordiv in Hdiv. case_decide; [done|]. injection Hdiv as <-.
  rewrite Hts in H. fold n in H.
  apply M_bind_Return in H as ([test_metrics avg] & w2 & Heval & H).
  apply perform_Return in H as (Hgen & _).
  split; [by eapply evaluate_Return_positive|].
  apply evaluate_Return in Heval as (Hsplit & Hlen & _).
  rewrite Hgen. simpl in Hsplit. rewrite Hsplit, <- Hlen.
  by rewrite drop_app_length.
Qed.

(** The file system calls of a run of the script that ends normally. *)
Lemma script_Return_trace (a : args) w w' :
  script env a w = (Return (), w') →
  ∃ test_metrics content,
    effects w' = effects w ++
      [read_params (os_path_join (model_dir a) "params.json");
       set_logger (os_path_join (model_dir a) "evaluate.log");
       load_dataset (data_dir a);
       load_checkpoint
         (os_path_join (model_dir a) (restore_file a +:+ ".pth.tar"));
       write_text (os_path_join (model_dir a) "output_tagged_sentences.txt")
                  content;
       save_dict_to_json test_metrics
         (os_path_join (model_dir a)
                       ("metrics_test_" +:+ restore_file a +:+ ".json"))].
Proof.
  intros H. unfold script in H.
  apply M_bind_Return in H as (json_path & w1 & Hstart & H).
  rewrite startup_run in Hstart.
  destruct (os_path_isfile env _); [|discriminate].
  injection Hstart as <- <-.
  apply M_bind_Return in H as (params0 & w2 & (_ & _ & He2)%external_Return & H).
  apply M_bind_Return in H as ([] & w3 & (_ & He3)%perform_Return & H).
  apply M_bind_Return in H as (dl & w4 & (_ & _ & He4)%external_Return & H).
  apply M_bind_Return in H as (data & w5 & [_ ->]%lift_Return & H).
  apply M_bind_Return in H as (test_data & w6 & [_ ->]%lift_Return & H).
  apply M_bind_Return in H as ([] & w7 & Hset & H).
  injection Hset as <-.
  apply M_bind_Return in H as (net0 & w8 & [_ ->]%lift_Return & H).
  apply M_bind_Return in H as (net & w9 & (_ & _ & He9)%external_Return & H).
  apply M_bind_Return in H as (num_steps & w10 & [_ ->]%lift_Return & H).
  apply M_bind_Return in H as ([test_metrics avg] & w11 & Heval & H).
  apply perform_Return in H as (_ & He12).
  apply evaluate_Return in Heval
    as (_ & _ & _ & _ & st & wl & _ & _ & _ & _ & He11).
  simpl in He9, He11.
  exists test_metrics, (str_join newline (tagged_sentences st)).
  rewrite He12, He11, He9, He4, He3, He2. by rewrite <- !app_assoc.
Qed.

Lemma os_path_join_absolute (dir name : string) :
  startswith_sep name = true → os_path_join dir name = name.
Proof. intros H. unfold os_path_join. by rewrite H. Qed.

(** X15.  With a [restore_file] that is an absolute path, the model
    directory has no part in the checkpoint's name: a run that ends
    normally has read the checkpoint from [<restore_file>.pth.tar] as
    given, while the tagged sentences and the metrics are still written
    below the model directory. *)
Theorem script_absolute_restore_file (a : args) w w' :
  script env a w = (Return (), w') →
  startswith_sep (restore_file a) = true →
  ∃ test_metrics content ofname save_path,
    in_directory (model_dir a) "output_tagged_sentences.txt" ofname ∧
    in_directory (model_dir a)
                 ("metrics_test_" +:+ restore_file a +:+ ".json") save_path ∧
    effects w' = effects w ++
      [read_params (os_path_join (model_dir a) "params.json");
       set_logger (os_path_join (model_dir a) "evaluate.log");
       load_dataset (data_dir a);
       load_checkpoint (restore_file a +:+ ".pth.tar");
       write_text ofname content;
       save_dict_to_json test_metrics save_path].
Proof.
  intros H Habs.
  apply script_Return_trace in H as (test_metrics & content & Heff).
  rewrite (os_path_join_absolute _ (restore_file a +:+ ".pth.tar")) in Heff.
  - exists test_metrics, content. eexists _, _.
    split; [|split; [|exact Heff]]; by apply os_path_join_in_directory.
  - destruct (restore_file a) as [|c rest]; [done|]. exact Habs.
Qed.

(** ** The metrics file is written last *)





End FurtherScript.

(** ** Means *)





Section Means.

Variable main : option (@script_globals).
Variable model : @batch Features → list (list Qc).
Variable loss_fn : list (list Qc) → list Qc → Qc.
Variable metrics : gmap string (list (list Qc) → list Qc → Qc).


End Means.

End FurtherTheory.

(** * The further properties at work on the small data set *)





Lemma evaluate_reports_exactly_these_keys_witness :
  dom Demo.run0.1.1 = reported_keys Demo.metrics.
Proof.
  exact (evaluate_reports_exactly_these_keys None Demo.model Demo.loss_fn
           Demo.metrics 2 Demo.w0 Demo.run0.1.1 Demo.run0.1.2 Demo.run0.2
           run0_returns).
Defined.

Lemma evaluate_StopIteration_witness :
  evaluate None Demo.model Demo.loss_fn Demo.metrics 2 Demo.w2
  = (Raise StopIteration, {| generator := []; effects := [] |}).
Proof.
  apply (evaluate_StopIteration Demo.model Demo.loss_fn Demo.metrics 2 Demo.w2).
  simpl. lia.
Defined.

Lemma evaluate_missing_count_witness :
  evaluate None Demo.model Demo.loss_fn Demo2.metrics_without_fp 2 Demo.w0
  = (Raise (KeyError (key_str "fp")),
     {| generator := [Demo.b1]; effects := [] |}).
Proof.
  apply (evaluate_missing_count Demo.model Demo.loss_fn
           Demo2.metrics_without_fp None 2 Demo.w0 "fp").
  - lia.
  - simpl. lia.
  - intros g [=].
  - vm_compute. reflexivity.
Defined.



Lemma lines_b1_returned :
  tag_batch Demo.tags Demo.b1 (Demo.model Demo.b1) = Return Demo2.lines_b1.
Proof. vm_compute. reflexivity. Qed.

Lemma tag_batch_lines_witness :
  length Demo2.lines_b1 = 2%nat ∧
  ∃ line, Demo2.lines_b1 !! 1%nat = Some line ∧
          tagged_line Demo.tags ["c"] [Demo.q 1 2] (Demo.q 0 1) = Some line.
Proof.
  destruct (tag_batch_lines Demo.tags Demo.b1 (Demo.model Demo.b1)
              Demo2.lines_b1 lines_b1_returned) as [Hlen Hlines].
  split; [exact Hlen|].
  exact (Hlines 1%nat ["c"] [Demo.q 1 2] (Demo.q 0 1) eq_refl eq_refl eq_refl).
Defined.

Lemma demo_loads (size : Z) :
  loads (Demo2.env_with size) default_args (Demo2.params_with size)
        Demo.loader [Demo.b1; Demo.b2] ().
Proof.
  split; [reflexivity|].
  exists {| model_type := "bert"; batch_size := size; cuda := false;
            test_size := 0 |}, {["test" := [Demo.b1; Demo.b2]]}, ().
  repeat split; reflexivity.
Qed.

Lemma script_test_set_too_small_witness :
  script (Demo2.env_with 8) default_args Demo.fresh
  = (Raise IndexError,
     loaded default_args (Demo2.params_with 8) Demo.loader
            [Demo.b1; Demo.b2] Demo.fresh).
Proof.
  apply (script_test_set_too_small (Demo2.env_with 8) default_args
           (Demo2.params_with 8) Demo.loader [Demo.b1; Demo.b2] ()
           Demo.fresh (demo_loads 8)).
  simpl. lia.
Defined.

Lemma script_batch_size_zero_witness :
  script (Demo2.env_with 0) default_args Demo.fresh
  = (Raise ZeroDivisionError,
     loaded default_args (Demo2.params_with 0) Demo.loader
            [Demo.b1; Demo.b2] Demo.fresh).
Proof.
  exact (script_batch_size_zero (Demo2.env_with 0) default_args
           (Demo2.params_with 0) Demo.loader [Demo.b1; Demo.b2] ()
           Demo.fresh (demo_loads 0) eq_refl).
Defined.

Lemma absolute_returns :
  script Demo.env Demo2.absolute Demo.fresh = (Return (), Demo2.absolute_run).
Proof. vm_compute. reflexivity. Qed.

Lemma script_absolute_restore_file_witness :
  load_checkpoint "/ckpt/best.pth.tar" ∈ effects Demo2.absolute_run.
Proof.
  destruct (script_absolute_restore_file Demo.env Demo2.absolute Demo.fresh
              Demo2.absolute_run absolute_returns eq_refl)
    as (test_metrics & content & ofname & save_path & _ & _ & ->).
  simpl. do 3 right. left.
Defined.



Lemma evaluate_returns_witness :
  ∃ m avg w',
    evaluate None Demo.model Demo.loss_fn Demo.metrics 2 Demo.w0
    = (Return (m, avg), w').
Proof.
  apply (evaluate_returns None Demo.model Demo.loss_fn Demo.metrics 2 Demo.w0).
  - lia.
  - simpl. lia.
  - by exists Demo.tp.
  - by exists Demo.fp.
  - by exists Demo.fn.
  - exact demo_counts_nonnegative.
  - intros g [=].
Defined.



Lemma demo_env_loads :
  loads Demo.env default_args (Demo2.params_with 2) Demo.loader
        [Demo.b1; Demo.b2] ().
Proof.
  split; [reflexivity|].
  exists {| model_type := "bert"; batch_size := 2; cuda := false;
            test_size := 0 |}, {["test" := [Demo.b1; Demo.b2]]}, ().
  repeat split; reflexivity.
Qed.

Lemma script_reads_quotient_of_batches_witness :
  (1 ≤ 2)%Z ∧ generator Demo.script_run = [].
Proof.
  exact (script_reads_quotient_of_batches Demo.env default_args
           (Demo2.params_with 2) Demo.loader [Demo.b1; Demo.b2] ()
           Demo.fresh Demo.script_run demo_env_loads script_returns).
Defined.
